(** * tapo_onvif_controller: a shallow embedding of [TapoONVIFController]

    The controller is a thin wrapper over an ONVIF/SOAP client library.
    Every method is modelled as a computation in a small monad that
    threads the controller object ([self]), logs each call made on the
    library together with its outcome, collects the printed lines, and
    propagates Python exceptions until a [try]/[except] handles them.
    The camera and the library are an oracle ([Env]) that answers each
    call from the history of the calls made so far.

    Conventions of the model:
    - coordinates, speeds and durations are IEEE-754 binary64 numbers, as
      Python floats are, and [min]/[max] are the builtins;
    - an exception is an instance of [Exception], which is what the
      handlers of the controller catch;
    - an attribute of a library object is missing, [None] or set, since
      the controller tells these apart with [hasattr];
    - [print] always succeeds; a printed line is kept as its f-string
      together with the values of its fields;
    - [time.sleep] is a call on the environment like the others. *)

From Stdlib Require Import ZArith List String Bool Lia DecimalString.
From Stdlib Require Import Floats.SpecFloat.
Import ListNotations.
Open Scope string_scope.
Open Scope list_scope.

(** ** Python floats *)

(** A Python [float] is an IEEE-754 binary64 number.  [spec_float] is the
    Standard Library's specification of such numbers; the comparison
    [SFltb] is the IEEE [<], false whenever an operand is NaN. *)
Module PyFloat.

Definition float : Type := spec_float.

Definition of_mantissa (neg : bool) (m : positive) (e : Z) : float :=
  S754_finite neg m e.

Definition zero : float := S754_zero false.
Definition neg_zero : float := S754_zero true.
Definition one : float := of_mantissa false 4503599627370496 (-52).
Definition neg_one : float := of_mantissa true 4503599627370496 (-52).
Definition half : float := of_mantissa false 4503599627370496 (-53).
Definition two : float := of_mantissa false 4503599627370496 (-51).
Definition neg_two : float := of_mantissa true 4503599627370496 (-51).
Definition three : float := of_mantissa false 6755399441055744 (-51).
Definition nan : float := S754_nan.

(** Unary minus, as in [-speed]. *)
Definition neg (a : float) : float :=
  match a with
  | S754_zero s => S754_zero (negb s)
  | S754_infinity s => S754_infinity (negb s)
  | S754_nan => S754_nan
  | S754_finite s m e => S754_finite (negb s) m e
  end.

(** The builtin [min(a, b)]: the first argument is kept unless a later
    one is strictly smaller ([item < current]). *)
Definition py_min (a b : float) : float := if SFltb b a then b else a.

(** The builtin [max(a, b)]: the first argument is kept unless a later
    one is strictly greater ([item > current]). *)
Definition py_max (a b : float) : float := if SFltb a b then b else a.

(** [max(rng[0], min(rng[1], v))], the expression used by
    [absolute_move] on each axis. *)
Definition clamp (rng : float * float) (v : float) : float :=
  py_max (fst rng) (py_min (snd rng) v).

End PyFloat.
Export PyFloat.

(** ** Python values, exceptions and attributes *)

#[local] Unset Elimination Schemes.
Inductive pyval : Type :=
| PyNone
| PyBool (b : bool)
| PyInt (z : Z)
| PyFloat (f : float)
| PyStr (s : string)
| PyTuple (l : list pyval)
| PyList (l : list pyval)
| PyDict (kv : list (string * pyval)).
#[local] Set Elimination Schemes.

(** An instance of (a subclass of) [Exception]: what [except Exception]
    catches. *)
Record Exn : Type := mkExn { exn_class : string; exn_msg : string }.

Inductive outcome (A : Type) : Type :=
| Returned (a : A)
| Raised (e : Exn).
Arguments Returned {A} a.
Arguments Raised {A} e.

(** An attribute of a library object, as [hasattr] and [.] see it: the
    object may not have the attribute at all, may have it set to [None],
    or may have it set to a value. *)
Inductive attr (A : Type) : Type :=
| Absent
| IsNone
| Has (a : A).
Arguments Absent {A}.
Arguments IsNone {A}.
Arguments Has {A} a.

Definition hasattr {A : Type} (a : attr A) : bool :=
  match a with Absent => false | _ => true end.

(** Truth value of a string or of [None]. *)
Definition truthy (s : option string) : bool :=
  match s with
  | None => false
  | Some s => negb (String.eqb s "")
  end.

(** ** ONVIF data, as the wrapper reads and writes it

    Elements that the ONVIF schema makes mandatory are plain fields;
    elements the wrapper probes with [hasattr], and elements optional in
    the schema, are [attr]s. *)

Record Vector2D : Type := mkVector2D
  { v2_x : float; v2_y : float; v2_space : option string }.

Record Vector1D : Type := mkVector1D
  { v1_x : float; v1_space : option string }.

Record PTZVector : Type := mkPTZVector
  { PanTilt : attr Vector2D; Zoom : attr Vector1D }.

Record PTZMoveStatus : Type := mkPTZMoveStatus
  { ms_PanTilt : attr string; ms_Zoom : attr string }.

Record PTZStatus : Type := mkPTZStatus
  { Position : attr PTZVector;
    MoveStatus : attr PTZMoveStatus;
    Error : attr string;
    UtcTime : string }.

Record FloatRange : Type := mkFloatRange { Min : float; Max : float }.

Record Space2DDescription : Type := mkSpace2D
  { s2_URI : string; XRange : FloatRange; YRange : FloatRange }.

Record Space1DDescription : Type := mkSpace1D
  { s1_URI : string; s1_XRange : FloatRange }.

Record PTZSpaces : Type := mkPTZSpaces
  { AbsolutePanTiltPositionSpace : attr (list Space2DDescription);
    AbsoluteZoomPositionSpace : attr (list Space1DDescription) }.

Record PTZConfigurationOptions : Type := mkOptions
  { Spaces : attr PTZSpaces }.

Record PTZConfiguration : Type := mkPTZConfiguration
  { cfg_token : string }.

Record Profile : Type := mkProfile
  { token : string; Name : string; PTZConfiguration_ : attr PTZConfiguration }.

Record DeviceInformation : Type := mkDeviceInformation
  { Manufacturer : string; Model : string; FirmwareVersion : string }.

Record PTZPreset : Type := mkPTZPreset
  { preset_token : string; preset_Name : string; PTZPosition : attr PTZVector }.

Record MediaUri : Type := mkMediaUri { Uri : string }.

(** The dictionary literal
    [{'PanTilt': {'x': a, 'y': b}, 'Zoom': {'x': c}}] used for [Speed],
    [Translation] and [Velocity]. *)
Record xyz : Type := mkXyz
  { PanTilt_x : float; PanTilt_y : float; Zoom_x : float }.

Record AbsoluteMoveRequest : Type := mkAbsoluteMove
  { am_ProfileToken : string;
    am_Position : option PTZVector;
    am_Speed : xyz }.

Record RelativeMoveRequest : Type := mkRelativeMove
  { rm_ProfileToken : string; rm_Translation : xyz; rm_Speed : xyz }.

Record ContinuousMoveRequest : Type := mkContinuousMove
  { cm_ProfileToken : string; cm_Velocity : xyz }.

Record StopRequest : Type := mkStop
  { st_ProfileToken : string; st_PanTilt : bool; st_Zoom : bool }.

Record GotoPresetRequest : Type := mkGotoPreset
  { gp_ProfileToken : string; gp_PresetToken : string; gp_Speed : xyz }.

Record SetPresetRequest : Type := mkSetPreset
  { sp_ProfileToken : string;
    sp_PresetName : string;
    sp_PresetToken : option string }.

Record RemovePresetRequest : Type := mkRemovePreset
  { rp_ProfileToken : string; rp_PresetToken : string }.

Record GotoHomeRequest : Type := mkGotoHome
  { gh_ProfileToken : string; gh_Speed : xyz }.

Record GetStreamUriRequest : Type := mkGetStreamUri
  { su_ProfileToken : string; su_Stream : string; su_Protocol : string }.

(** Library objects the wrapper holds but never looks into. *)
Definition handle : Type := nat.

(** Response bodies the wrapper only hands to [serialize_object]. *)
Definition opaque : Type := string.

Inductive ZeepObject : Type :=
| ZStatus (s : PTZStatus)
| ZDeviceInformation (d : DeviceInformation)
| ZCapabilities (c : opaque)
| ZNodes (l : list opaque).

(** ** Calls on the library

    A call answers with what the library hands to the wrapper.  The
    library unwraps a response that has a single element: [GetProfiles]
    and [GetPresets] answer with the list itself, and [SetPreset], whose
    response has the one element [PresetToken], answers with the token, a
    [str]. *)

Inductive Call : Type -> Type :=
| ONVIFCamera (host : string) (port : Z) (user password : string)
    (wsdl_dir : option string) : Call handle
| GetDeviceInformation (camera : handle) : Call DeviceInformation
| GetCapabilities (camera : handle) : Call opaque
| create_media_service (camera : handle) : Call handle
| create_ptz_service (camera : handle) : Call handle
| create_type (service : handle) (name : string) : Call unit
| GetProfiles (media : handle) : Call (list Profile)
| GetStreamUri (media : handle) (r : GetStreamUriRequest) : Call MediaUri
| GetConfigurationOptions (ptz : handle) (ConfigurationToken : string)
    : Call PTZConfigurationOptions
| GetStatus (ptz : handle) (ProfileToken : string) : Call PTZStatus
| AbsoluteMove (ptz : handle) (r : AbsoluteMoveRequest) : Call unit
| RelativeMove (ptz : handle) (r : RelativeMoveRequest) : Call unit
| ContinuousMove (ptz : handle) (r : ContinuousMoveRequest) : Call unit
| Stop (ptz : handle) (r : StopRequest) : Call unit
| GetPresets (ptz : handle) (ProfileToken : string) : Call (list PTZPreset)
| GotoPreset (ptz : handle) (r : GotoPresetRequest) : Call unit
| SetPreset (ptz : handle) (r : SetPresetRequest) : Call string
| RemovePreset (ptz : handle) (r : RemovePresetRequest) : Call unit
| GotoHomePosition (ptz : handle) (r : GotoHomeRequest) : Call unit
| SetHomePosition (ptz : handle) (ProfileToken : string) : Call unit
| GetNodes (ptz : handle) : Call (list opaque)
| sleep (duration : float) : Call unit.

(** One entry of the call log: the call and how it ended. *)
Definition Event : Type := { R : Type & (Call R * outcome R)%type }.

Definition ev {R : Type} (c : Call R) (r : outcome R) : Event :=
  existT _ R (c, r).

Definition call_name {R : Type} (c : Call R) : string :=
  match c with
  | ONVIFCamera _ _ _ _ _ => "ONVIFCamera"
  | GetDeviceInformation _ => "GetDeviceInformation"
  | GetCapabilities _ => "GetCapabilities"
  | create_media_service _ => "create_media_service"
  | create_ptz_service _ => "create_ptz_service"
  | create_type _ _ => "create_type"
  | GetProfiles _ => "GetProfiles"
  | GetStreamUri _ _ => "GetStreamUri"
  | GetConfigurationOptions _ _ => "GetConfigurationOptions"
  | GetStatus _ _ => "GetStatus"
  | AbsoluteMove _ _ => "AbsoluteMove"
  | RelativeMove _ _ => "RelativeMove"
  | ContinuousMove _ _ => "ContinuousMove"
  | Stop _ _ => "Stop"
  | GetPresets _ _ => "GetPresets"
  | GotoPreset _ _ => "GotoPreset"
  | SetPreset _ _ => "SetPreset"
  | RemovePreset _ _ => "RemovePreset"
  | GotoHomePosition _ _ => "GotoHomePosition"
  | SetHomePosition _ _ => "SetHomePosition"
  | GetNodes _ => "GetNodes"
  | sleep _ => "sleep"
  end.

Definition ev_name (e : Event) : string := call_name (fst (projT2 e)).

Definition ev_raised (e : Event) : option Exn :=
  match snd (projT2 e) with
  | Raised x => Some x
  | Returned _ => None
  end.

Definition ev_is (name : string) (e : Event) : bool :=
  String.eqb (ev_name e) name.

Definition count_calls (name : string) (l : list Event) : nat :=
  List.length (List.filter (ev_is name) l).

(** Typed views of the log. *)
Definition ev_AbsoluteMove (e : Event) : option AbsoluteMoveRequest :=
  match fst (projT2 e) with AbsoluteMove _ r => Some r | _ => None end.

Definition ev_RelativeMove (e : Event) : option RelativeMoveRequest :=
  match fst (projT2 e) with RelativeMove _ r => Some r | _ => None end.

Definition outcome_GetStatus {R : Type} (c : Call R)
  : outcome R -> option (outcome PTZStatus) :=
  match c in Call R return outcome R -> option (outcome PTZStatus) with
  | GetStatus _ _ => fun r => Some r
  | _ => fun _ => None
  end.

Definition ev_GetStatus (e : Event) : option (outcome PTZStatus) :=
  outcome_GetStatus (fst (projT2 e)) (snd (projT2 e)).

Definition outcome_GetConfigurationOptions {R : Type} (c : Call R)
  : outcome R -> option (outcome PTZConfigurationOptions) :=
  match c in Call R
        return outcome R -> option (outcome PTZConfigurationOptions) with
  | GetConfigurationOptions _ _ => fun r => Some r
  | _ => fun _ => None
  end.

Definition ev_GetConfigurationOptions (e : Event)
  : option (outcome PTZConfigurationOptions) :=
  outcome_GetConfigurationOptions (fst (projT2 e)) (snd (projT2 e)).

(** The camera, the library and the clock: each call is answered from the
    log of the calls that came before it.  [serialize_object] is the
    library's conversion of a response object to native Python data,
    taken to be total. *)
Record Env : Type := mkEnv
  { respond : forall R : Type, list Event -> Call R -> outcome R;
    serialize_object : ZeepObject -> pyval }.

(** ** The controller object *)

Record Controller : Type := mkController
  { host : string;
    port : Z;
    user : string;
    password : string;
    wsdl_dir : option string;
    camera : option handle;
    media_service : option handle;
    ptz_service : option handle;
    media_profile : option Profile;
    ptz_config_options : option PTZConfigurationOptions;
    pan_range : float * float;
    tilt_range : float * float;
    zoom_range : float * float }.

Definition set_camera (v : option handle) (c : Controller) : Controller :=
  mkController (host c) (port c) (user c) (password c) (wsdl_dir c)
    v (media_service c) (ptz_service c) (media_profile c)
    (ptz_config_options c) (pan_range c) (tilt_range c) (zoom_range c).

Definition set_media_service (v : option handle) (c : Controller) : Controller :=
  mkController (host c) (port c) (user c) (password c) (wsdl_dir c)
    (camera c) v (ptz_service c) (media_profile c)
    (ptz_config_options c) (pan_range c) (tilt_range c) (zoom_range c).

Definition set_ptz_service (v : option handle) (c : Controller) : Controller :=
  mkController (host c) (port c) (user c) (password c) (wsdl_dir c)
    (camera c) (media_service c) v (media_profile c)
    (ptz_config_options c) (pan_range c) (tilt_range c) (zoom_range c).

Definition set_media_profile (v : option Profile) (c : Controller) : Controller :=
  mkController (host c) (port c) (user c) (password c) (wsdl_dir c)
    (camera c) (media_service c) (ptz_service c) v
    (ptz_config_options c) (pan_range c) (tilt_range c) (zoom_range c).

Definition set_ptz_config_options (v : option PTZConfigurationOptions)
  (c : Controller) : Controller :=
  mkController (host c) (port c) (user c) (password c) (wsdl_dir c)
    (camera c) (media_service c) (ptz_service c) (media_profile c)
    v (pan_range c) (tilt_range c) (zoom_range c).

Definition set_pan_range (v : float * float) (c : Controller) : Controller :=
  mkController (host c) (port c) (user c) (password c) (wsdl_dir c)
    (camera c) (media_service c) (ptz_service c) (media_profile c)
    (ptz_config_options c) v (tilt_range c) (zoom_range c).

Definition set_tilt_range (v : float * float) (c : Controller) : Controller :=
  mkController (host c) (port c) (user c) (password c) (wsdl_dir c)
    (camera c) (media_service c) (ptz_service c) (media_profile c)
    (ptz_config_options c) (pan_range c) v (zoom_range c).

Definition set_zoom_range (v : float * float) (c : Controller) : Controller :=
  mkController (host c) (port c) (user c) (password c) (wsdl_dir c)
    (camera c) (media_service c) (ptz_service c) (media_profile c)
    (ptz_config_options c) (pan_range c) (tilt_range c) v.

(** [TapoONVIFController.__init__] *)
Definition __init__ (host : string) (port : Z) (user password : string)
  (wsdl_dir : option string) : Controller :=
  {| host := host;
     port := port;
     user := user;
     password := password;
     wsdl_dir := wsdl_dir;
     camera := None;
     media_service := None;
     ptz_service := None;
     media_profile := None;
     ptz_config_options := None;
     pan_range := (neg_one, one);
     tilt_range := (neg_one, one);
     zoom_range := (zero, one) |}.

(** ** The monad of controller methods *)

(** A printed line: the f-string and the values of its fields. *)
Record Line : Type := mkLine { fmt : string; args : list pyval }.

(** What a running method has changed so far: the controller, the calls
    made since the run began (oldest first) and the lines printed. *)
Record State : Type := mkState
  { self_of : Controller;
    calls_of : list Event;
    printed_of : list Line }.

Record Result (A : Type) : Type := mkResult
  { value : outcome A;
    state : State }.
Arguments mkResult {A} value state.
Arguments value {A} r.
Arguments state {A} r.

Definition self_after {A : Type} (r : Result A) : Controller := self_of (state r).
Definition calls {A : Type} (r : Result A) : list Event := calls_of (state r).
Definition printed {A : Type} (r : Result A) : list Line := printed_of (state r).

(** A method runs against the environment and the log [h] of the calls
    made before the run began. *)
Definition M (A : Type) : Type := Env -> list Event -> State -> Result A.

(** Running a method on a controller. *)
Definition run {A : Type} (m : M A) (env : Env) (h : list Event)
  (self : Controller) : Result A :=
  m env h (mkState self [] []).

Definition ret {A : Type} (a : A) : M A :=
  fun _ _ st => mkResult (Returned a) st.

Definition raise {A : Type} (e : Exn) : M A :=
  fun _ _ st => mkResult (Raised e) st.

Definition bind {A B : Type} (m : M A) (k : A -> M B) : M B :=
  fun env h st =>
    match m env h st with
    | mkResult (Returned a) st1 => k a env h st1
    | mkResult (Raised e) st1 => mkResult (Raised e) st1
    end.

(** [try: body except Exception as e: handler e] *)
Definition try_except {A : Type} (body : M A) (handler : Exn -> M A) : M A :=
  fun env h st =>
    match body env h st with
    | mkResult (Returned a) st1 => mkResult (Returned a) st1
    | mkResult (Raised e) st1 => handler e env h st1
    end.

(** A call on the library: the environment answers it from all the calls
    made before, and the call is logged with its outcome. *)
Definition call {R : Type} (c : Call R) : M R :=
  fun env h st =>
    let r := respond env R (h ++ calls_of st) c in
    mkResult r (mkState (self_of st) (calls_of st ++ [ev c r]) (printed_of st)).

Definition print (f : string) (a : list pyval) : M unit :=
  fun _ _ st =>
    mkResult (Returned tt)
      (mkState (self_of st) (calls_of st) (printed_of st ++ [mkLine f a])).

Definition get_self : M Controller :=
  fun _ _ st => mkResult (Returned (self_of st)) st.

Definition modify_self (f : Controller -> Controller) : M unit :=
  fun _ _ st =>
    mkResult (Returned tt) (mkState (f (self_of st)) (calls_of st) (printed_of st)).

Definition serialize (o : ZeepObject) : M pyval :=
  fun env _ st => mkResult (Returned (serialize_object env o)) st.

Declare Scope py_scope.
Delimit Scope py_scope with py.
Notation "x <- c ;; k" := (bind c (fun x => k))
  (at level 61, c at next level, right associativity) : py_scope.
Notation "c ;; k" := (bind c (fun _ => k))
  (at level 61, right associativity) : py_scope.
Open Scope py_scope.

Definition AttributeError (obj attribute : string) : Exn :=
  mkExn "AttributeError"
    ("'" ++ obj ++ "' object has no attribute '" ++ attribute ++ "'")%string.

(** [o.attribute] where [o] may be [None]. *)
Definition deref {A : Type} (o : option A) (attribute : string) : M A :=
  match o with
  | Some a => ret a
  | None => raise (AttributeError "NoneType" attribute)
  end.

(** [o.attribute] read from an object that may lack the attribute; a
    [None] value is read as it is. *)
Definition getattr {A : Type} (obj : string) (a : attr A) (attribute : string)
  : M (option A) :=
  match a with
  | Absent => raise (AttributeError obj attribute)
  | IsNone => ret None
  | Has v => ret (Some v)
  end.

(** [s.attribute] where [s] is a [str]: a string has none of the
    attributes the wrapper reads. *)
Definition str_attribute (s : string) (attribute : string) : M string :=
  raise (AttributeError "str" attribute).

Definition opt_float (v : option float) : pyval :=
  match v with Some f => PyFloat f | None => PyNone end.

Definition speed_dict (speed : float) : xyz := mkXyz speed speed speed.

(** ** Methods of [TapoONVIFController] *)

(** [_get_ptz_config_options]: asks the device for its configuration
    options and stores the ranges of the first absolute pan/tilt space and
    of the first absolute zoom space. *)
Definition _get_ptz_config_options : M unit :=
  try_except
    (self <- get_self ;;
     ptz <- deref (ptz_service self) "create_type" ;;
     call (create_type ptz "GetConfigurationOptions") ;;
     profile <- deref (media_profile self) "PTZConfiguration" ;;
     cfg <- getattr "Profile" (PTZConfiguration_ profile) "PTZConfiguration" ;;
     cfg <- deref cfg "token" ;;
     options <- call (GetConfigurationOptions ptz (cfg_token cfg)) ;;
     modify_self (set_ptz_config_options (Some options)) ;;
     spaces <- getattr "PTZConfigurationOptions" (Spaces options) "Spaces" ;;
     match spaces with
     | Some sp =>
         match AbsolutePanTiltPositionSpace sp with
         | Has (abs_space :: _) =>
             modify_self
               (set_pan_range (Min (XRange abs_space), Max (XRange abs_space))) ;;
             modify_self
               (set_tilt_range (Min (YRange abs_space), Max (YRange abs_space))) ;;
             self <- get_self ;;
             print "  絕對座標範圍:" [] ;;
             print "    Pan (水平): {self.pan_range[0]} ~ {self.pan_range[1]}"
               [PyFloat (fst (pan_range self)); PyFloat (snd (pan_range self))] ;;
             print "    Tilt (垂直): {self.tilt_range[0]} ~ {self.tilt_range[1]}"
               [PyFloat (fst (tilt_range self)); PyFloat (snd (tilt_range self))]
         | _ => ret tt
         end
     | None => ret tt
     end ;;
     match spaces with
     | Some sp =>
         match AbsoluteZoomPositionSpace sp with
         | Has (zoom_space :: _) =>
             modify_self
               (set_zoom_range
                  (Min (s1_XRange zoom_space), Max (s1_XRange zoom_space))) ;;
             self <- get_self ;;
             print "    Zoom (縮放): {self.zoom_range[0]} ~ {self.zoom_range[1]}"
               [PyFloat (fst (zoom_range self)); PyFloat (snd (zoom_range self))]
         | _ => ret tt
         end
     | None => ret tt
     end)
    (fun e => print "  ⚠ 無法獲取 PTZ 配置選項: {e}" [PyStr (exn_msg e)]).

(** [connect] *)
Definition connect : M bool :=
  try_except
    (self <- get_self ;;
     print "🔌 連接到 ONVIF 服務 {self.host}:{self.port}..."
       [PyStr (host self); PyInt (port self)] ;;
     cam <- call (ONVIFCamera (host self) (port self) (user self) (password self)
                    (if truthy (wsdl_dir self) then wsdl_dir self else None)) ;;
     modify_self (set_camera (Some cam)) ;;
     print "✓ ONVIF 連線成功" [] ;;
     self <- get_self ;;
     cam <- deref (camera self) "devicemgmt" ;;
     device_info <- call (GetDeviceInformation cam) ;;
     print "  製造商: {device_info.Manufacturer}" [PyStr (Manufacturer device_info)] ;;
     print "  型號: {device_info.Model}" [PyStr (Model device_info)] ;;
     print "  韌體版本: {device_info.FirmwareVersion}"
       [PyStr (FirmwareVersion device_info)] ;;
     media <- call (create_media_service cam) ;;
     modify_self (set_media_service (Some media)) ;;
     print "✓ 媒體服務已建立" [] ;;
     profiles <- call (GetProfiles media) ;;
     match profiles with
     | [] => raise (mkExn "Exception" "找不到媒體配置檔")
     | profile :: _ =>
         modify_self (set_media_profile (Some profile)) ;;
         print "  配置檔名稱: {self.media_profile.Name}" [PyStr (Name profile)] ;;
         print "  配置檔 Token: {self.media_profile.token}" [PyStr (token profile)] ;;
         ptz <- call (create_ptz_service cam) ;;
         modify_self (set_ptz_service (Some ptz)) ;;
         print "✓ PTZ 服務已建立" [] ;;
         _get_ptz_config_options ;;
         ret true
     end)
    (fun e => print "✗ 連接失敗: {e}" [PyStr (exn_msg e)] ;; ret false).

(** [get_rtsp_url] *)
Definition get_rtsp_url (stream_index : Z) : M string :=
  self <- get_self ;;
  ret ("rtsp://" ++ user self ++ ":" ++ password self ++ "@" ++ host self
       ++ ":554/stream" ++ NilZero.string_of_int (Z.to_int stream_index))%string.

(** [get_onvif_stream_url] *)
Definition get_onvif_stream_url : M string :=
  try_except
    (self <- get_self ;;
     media <- deref (media_service self) "create_type" ;;
     call (create_type media "GetStreamUri") ;;
     profile <- deref (media_profile self) "token" ;;
     uri <- call (GetStreamUri media
                    (mkGetStreamUri (token profile) "RTP-Unicast" "RTSP")) ;;
     ret (Uri uri))
    (fun e => print "✗ 無法獲取串流 URL: {e}" [PyStr (exn_msg e)] ;; ret "").

(** The [pan]/[tilt] block of [absolute_move], run when one of them is
    given.  [hasattr(None, 'PanTilt')] is false and the assignment
    [None.PanTilt = {}] raises; a missing [PanTilt] is replaced by the
    dictionary [{}], on which the assignment of [x] or [y] that follows
    raises; a [PanTilt] that is [None] has no [x] or [y] either. *)
Definition assign_pan_tilt (self : Controller) (pan tilt : option float)
  (position : option PTZVector) : M (option PTZVector) :=
  match position with
  | None => raise (AttributeError "NoneType" "PanTilt")
  | Some pos =>
      match PanTilt pos with
      | Absent =>
          raise (AttributeError "dict"
                   (match pan with Some _ => "x" | None => "y" end))
      | IsNone =>
          raise (AttributeError "NoneType"
                   (match pan with Some _ => "x" | None => "y" end))
      | Has v =>
          let v :=
            match pan with
            | Some p => mkVector2D (clamp (pan_range self) p) (v2_y v) (v2_space v)
            | None => v
            end in
          let v :=
            match tilt with
            | Some t => mkVector2D (v2_x v) (clamp (tilt_range self) t) (v2_space v)
            | None => v
            end in
          ret (Some (mkPTZVector (Has v) (Zoom pos)))
      end
  end.

(** The [zoom] block of [absolute_move], run when [zoom] is given. *)
Definition assign_zoom (self : Controller) (zoom : float)
  (position : option PTZVector) : M (option PTZVector) :=
  match position with
  | None => raise (AttributeError "NoneType" "Zoom")
  | Some pos =>
      match Zoom pos with
      | Absent => raise (AttributeError "dict" "x")
      | IsNone => raise (AttributeError "NoneType" "x")
      | Has v =>
          ret (Some (mkPTZVector (PanTilt pos)
                       (Has (mkVector1D (clamp (zoom_range self) zoom)
                               (v1_space v)))))
      end
  end.

Definition is_some {A : Type} (o : option A) : bool :=
  match o with Some _ => true | None => false end.

(** [absolute_move] *)
Definition absolute_move (pan tilt zoom : option float) (speed : float) : M bool :=
  try_except
    (self <- get_self ;;
     ptz <- deref (ptz_service self) "create_type" ;;
     call (create_type ptz "AbsoluteMove") ;;
     profile <- deref (media_profile self) "token" ;;
     status <- call (GetStatus ptz (token profile)) ;;
     position <- getattr "PTZStatus" (Position status) "Position" ;;
     position <- (if is_some pan || is_some tilt
                  then assign_pan_tilt self pan tilt position
                  else ret position) ;;
     position <- match zoom with
                 | Some z => assign_zoom self z position
                 | None => ret position
                 end ;;
     call (AbsoluteMove ptz
             (mkAbsoluteMove (token profile) position (speed_dict speed))) ;;
     print "✓ 絕對移動: Pan={pan}, Tilt={tilt}, Zoom={zoom}"
       [opt_float pan; opt_float tilt; opt_float zoom] ;;
     ret true)
    (fun e => print "✗ 絕對移動失敗: {e}" [PyStr (exn_msg e)] ;; ret false).

(** [move_to_position] *)
Definition move_to_position (pan tilt : float) (speed : float) : M bool :=
  absolute_move (Some pan) (Some tilt) None speed.

(** [relative_move] *)
Definition relative_move (pan_delta tilt_delta zoom_delta speed : float) : M bool :=
  try_except
    (self <- get_self ;;
     ptz <- deref (ptz_service self) "create_type" ;;
     call (create_type ptz "RelativeMove") ;;
     profile <- deref (media_profile self) "token" ;;
     call (RelativeMove ptz
             (mkRelativeMove (token profile)
                (mkXyz pan_delta tilt_delta zoom_delta) (speed_dict speed))) ;;
     print "✓ 相對移動: Pan Δ={pan_delta}, Tilt Δ={tilt_delta}"
       [PyFloat pan_delta; PyFloat tilt_delta] ;;
     ret true)
    (fun e => print "✗ 相對移動失敗: {e}" [PyStr (exn_msg e)] ;; ret false).

(** [stop] *)
Definition stop : M unit :=
  try_except
    (self <- get_self ;;
     ptz <- deref (ptz_service self) "Stop" ;;
     profile <- deref (media_profile self) "token" ;;
     call (Stop ptz (mkStop (token profile) true true)) ;;
     print "⏹ 移動已停止" [])
    (fun e => print "✗ 停止失敗: {e}" [PyStr (exn_msg e)]).

(** [continuous_move]; [time.sleep] is the call [sleep] on the
    environment. *)
Definition continuous_move (pan_speed tilt_speed zoom_speed duration : float)
  : M unit :=
  try_except
    (self <- get_self ;;
     ptz <- deref (ptz_service self) "create_type" ;;
     call (create_type ptz "ContinuousMove") ;;
     profile <- deref (media_profile self) "token" ;;
     call (ContinuousMove ptz
             (mkContinuousMove (token profile)
                (mkXyz pan_speed tilt_speed zoom_speed))) ;;
     print "🔄 連續移動開始: Pan={pan_speed}, Tilt={tilt_speed}"
       [PyFloat pan_speed; PyFloat tilt_speed] ;;
     call (sleep duration) ;;
     stop)
    (fun e => print "✗ 連續移動失敗: {e}" [PyStr (exn_msg e)]).

(** [pan_left], [pan_right], [tilt_up], [tilt_down] *)
Definition pan_left (speed duration : float) : M unit :=
  continuous_move (neg speed) zero zero duration.

Definition pan_right (speed duration : float) : M unit :=
  continuous_move speed zero zero duration.

Definition tilt_up (speed duration : float) : M unit :=
  continuous_move zero speed zero duration.

Definition tilt_down (speed duration : float) : M unit :=
  continuous_move zero (neg speed) zero duration.

(** The value of an attribute that is there ([None] for a [None] one). *)
Definition attr_value {A : Type} (a : attr A) : option A :=
  match a with Has v => Some v | _ => None end.

(** [hasattr(o, name)] where [o] itself may be [None]. *)
Definition hasattr_on {A B : Type} (o : option A) (field : A -> attr B) : bool :=
  match o with
  | Some a => hasattr (field a)
  | None => false
  end.

(** [o.name] where [o] is an object or [None] and [hasattr(o, name)] has
    been checked. *)
Definition field_on {A B : Type} (o : option A) (field : A -> attr B) : option B :=
  match o with
  | Some a => attr_value (field a)
  | None => None
  end.

(** [getattr(ms, name, 'N/A')] *)
Definition getattr_default (ms : option PTZMoveStatus)
  (field : PTZMoveStatus -> attr string) : pyval :=
  match ms with
  | None => PyStr "N/A"
  | Some m =>
      match field m with
      | Absent => PyStr "N/A"
      | IsNone => PyNone
      | Has s => PyStr s
      end
  end.

(** [get_status] *)
Definition get_status : M pyval :=
  try_except
    (self <- get_self ;;
     ptz <- deref (ptz_service self) "GetStatus" ;;
     profile <- deref (media_profile self) "token" ;;
     status <- call (GetStatus ptz (token profile)) ;;
     status_dict <- serialize (ZStatus status) ;;
     print "📍 當前 PTZ 狀態:" [] ;;
     (if hasattr (Position status) then
        let pos := attr_value (Position status) in
        (if hasattr_on pos PanTilt then
           pt <- deref (field_on pos PanTilt) "x" ;;
           print "   Pan (水平): {pos.PanTilt.x:.4f}" [PyFloat (v2_x pt)] ;;
           print "   Tilt (垂直): {pos.PanTilt.y:.4f}" [PyFloat (v2_y pt)]
         else ret tt) ;;
        (if hasattr_on pos Zoom then
           z <- deref (field_on pos Zoom) "x" ;;
           print "   Zoom (縮放): {pos.Zoom.x:.4f}" [PyFloat (v1_x z)]
         else ret tt)
      else ret tt) ;;
     (if hasattr (MoveStatus status) then
        let ms := attr_value (MoveStatus status) in
        print "   移動狀態: PanTilt={getattr(ms, 'PanTilt', 'N/A')}, Zoom={getattr(ms, 'Zoom', 'N/A')}"
          [getattr_default ms ms_PanTilt; getattr_default ms ms_Zoom]
      else ret tt) ;;
     ret status_dict)
    (fun e => print "✗ 無法獲取狀態: {e}" [PyStr (exn_msg e)] ;; ret (PyDict [])).

(** [get_current_position] *)
Definition get_current_position : M (float * float * float) :=
  try_except
    (self <- get_self ;;
     ptz <- deref (ptz_service self) "GetStatus" ;;
     profile <- deref (media_profile self) "token" ;;
     status <- call (GetStatus ptz (token profile)) ;;
     let pan := zero in
     let tilt := zero in
     let zoom := zero in
     if hasattr (Position status) then
       let pos := attr_value (Position status) in
       pan_tilt <- (if hasattr_on pos PanTilt then
                      pt <- deref (field_on pos PanTilt) "x" ;;
                      ret (v2_x pt, v2_y pt)
                    else ret (pan, tilt)) ;;
       zoom <- (if hasattr_on pos Zoom then
                  z <- deref (field_on pos Zoom) "x" ;;
                  ret (v1_x z)
                else ret zoom) ;;
       ret (fst pan_tilt, snd pan_tilt, zoom)
     else ret (pan, tilt, zoom))
    (fun e => print "✗ 無法獲取座標: {e}" [PyStr (exn_msg e)] ;;
              ret (zero, zero, zero)).

(** [d[key] = v] on a dictionary kept in insertion order. *)
Fixpoint dict_set (d : list (string * pyval)) (key : string) (v : pyval)
  : list (string * pyval) :=
  match d with
  | [] => [(key, v)]
  | (k, w) :: rest =>
      if String.eqb k key then (k, v) :: rest else (k, w) :: dict_set rest key v
  end.

(** The body of [for preset in presets] in [get_presets]. *)
Fixpoint get_presets_loop (presets : list PTZPreset)
  (preset_dict : list (string * pyval)) : M (list (string * pyval)) :=
  match presets with
  | [] => ret preset_dict
  | preset :: rest =>
      let preset_dict :=
        dict_set preset_dict (preset_token preset) (PyStr (preset_Name preset)) in
      (if hasattr (PTZPosition preset) then
         let pos := attr_value (PTZPosition preset) in
         pan <- (if hasattr_on pos PanTilt then
                   pt <- deref (field_on pos PanTilt) "x" ;; ret (PyFloat (v2_x pt))
                 else ret (PyStr "N/A")) ;;
         tilt <- (if hasattr_on pos PanTilt then
                    pt <- deref (field_on pos PanTilt) "y" ;; ret (PyFloat (v2_y pt))
                  else ret (PyStr "N/A")) ;;
         print "   Token {preset.token}: {preset.Name} (Pan={pan}, Tilt={tilt})"
           [PyStr (preset_token preset); PyStr (preset_Name preset); pan; tilt]
       else
         print "   Token {preset.token}: {preset.Name}"
           [PyStr (preset_token preset); PyStr (preset_Name preset)]) ;;
      get_presets_loop rest preset_dict
  end.

(** [get_presets] *)
Definition get_presets : M pyval :=
  try_except
    (self <- get_self ;;
     ptz <- deref (ptz_service self) "GetPresets" ;;
     profile <- deref (media_profile self) "token" ;;
     presets <- call (GetPresets ptz (token profile)) ;;
     print "📋 預設位置 ({len(presets)} 個):"
       [PyInt (Z.of_nat (List.length presets))] ;;
     preset_dict <- get_presets_loop presets [] ;;
     ret (PyDict preset_dict))
    (fun e => print "✗ 無法獲取預設位置: {e}" [PyStr (exn_msg e)] ;;
              ret (PyDict [])).

(** [goto_preset] *)
Definition goto_preset (preset_token : string) (speed : float) : M unit :=
  try_except
    (self <- get_self ;;
     ptz <- deref (ptz_service self) "create_type" ;;
     call (create_type ptz "GotoPreset") ;;
     profile <- deref (media_profile self) "token" ;;
     call (GotoPreset ptz
             (mkGotoPreset (token profile) preset_token (speed_dict speed))) ;;
     print "✓ 正在移動到預設位置: {preset_token}" [PyStr preset_token])
    (fun e => print "✗ 移動到預設位置失敗: {e}" [PyStr (exn_msg e)]).

(** [set_preset]: [response] is the token the library returned, a [str],
    so that reading [response.PresetToken] raises and the lines after it
    are never reached. *)
Definition set_preset (preset_name : string) (preset_token : option string)
  : M string :=
  try_except
    (self <- get_self ;;
     ptz <- deref (ptz_service self) "create_type" ;;
     call (create_type ptz "SetPreset") ;;
     profile <- deref (media_profile self) "token" ;;
     response <- call (SetPreset ptz
                         (mkSetPreset (token profile) preset_name
                            (if truthy preset_token then preset_token else None))) ;;
     token <- str_attribute response "PresetToken" ;;
     print "✓ 已設定預設位置: {preset_name} (Token: {token})"
       [PyStr preset_name; PyStr token] ;;
     ret token)
    (fun e => print "✗ 設定預設位置失敗: {e}" [PyStr (exn_msg e)] ;; ret "").

(** [remove_preset] *)
Definition remove_preset (preset_token : string) : M unit :=
  try_except
    (self <- get_self ;;
     ptz <- deref (ptz_service self) "RemovePreset" ;;
     profile <- deref (media_profile self) "token" ;;
     call (RemovePreset ptz (mkRemovePreset (token profile) preset_token)) ;;
     print "✓ 已移除預設位置: {preset_token}" [PyStr preset_token])
    (fun e => print "✗ 移除預設位置失敗: {e}" [PyStr (exn_msg e)]).

(** [goto_home] *)
Definition goto_home (speed : float) : M unit :=
  try_except
    (self <- get_self ;;
     ptz <- deref (ptz_service self) "create_type" ;;
     call (create_type ptz "GotoHomePosition") ;;
     profile <- deref (media_profile self) "token" ;;
     call (GotoHomePosition ptz (mkGotoHome (token profile) (speed_dict speed))) ;;
     print "🏠 正在移動到 Home 位置" [])
    (fun e => print "✗ 移動到 Home 位置失敗: {e}" [PyStr (exn_msg e)]).

(** [set_home] *)
Definition set_home : M unit :=
  try_except
    (self <- get_self ;;
     ptz <- deref (ptz_service self) "SetHomePosition" ;;
     profile <- deref (media_profile self) "token" ;;
     call (SetHomePosition ptz (token profile)) ;;
     print "🏠 已設定當前位置為 Home" [])
    (fun e => print "✗ 設定 Home 位置失敗: {e}" [PyStr (exn_msg e)]).

(** [get_device_info] *)
Definition get_device_info : M pyval :=
  try_except
    (self <- get_self ;;
     cam <- deref (camera self) "devicemgmt" ;;
     info <- call (GetDeviceInformation cam) ;;
     serialize (ZDeviceInformation info))
    (fun e => print "✗ 無法獲取設備資訊: {e}" [PyStr (exn_msg e)] ;;
              ret (PyDict [])).

(** [get_capabilities] *)
Definition get_capabilities : M pyval :=
  try_except
    (self <- get_self ;;
     cam <- deref (camera self) "devicemgmt" ;;
     caps <- call (GetCapabilities cam) ;;
     serialize (ZCapabilities caps))
    (fun e => print "✗ 無法獲取設備能力: {e}" [PyStr (exn_msg e)] ;;
              ret (PyDict [])).

(** [get_ptz_nodes] *)
Definition get_ptz_nodes : M pyval :=
  try_except
    (self <- get_self ;;
     ptz <- deref (ptz_service self) "GetNodes" ;;
     nodes <- call (GetNodes ptz) ;;
     serialize (ZNodes nodes))
    (fun e => print "✗ 無法獲取 PTZ 節點: {e}" [PyStr (exn_msg e)] ;;
              ret (PyList [])).

(** The float 0.3. *)
Definition three_tenths : float := of_mantissa false 5404319552844595 (-54).

(** [s * n] *)
Fixpoint string_times (s : string) (n : nat) : string :=
  match n with
  | O => ""
  | S n => (s ++ string_times s n)%string
  end.

(** The controller [demo] builds. *)
Definition demo_controller : Controller :=
  __init__ "192.168.1.100" 2020 "your_camera_account" "your_camera_password" None.

(** The part of [demo] that follows a successful [connect]. *)
Definition demo_tour : M unit :=
  print "\n--- 基本功能示範 ---" [] ;;
  print "\n1. RTSP 串流 URL:" [] ;;
  main_url <- get_rtsp_url 1 ;;
  print "   主串流: {controller.get_rtsp_url(1)}" [PyStr main_url] ;;
  sub_url <- get_rtsp_url 2 ;;
  print "   次串流: {controller.get_rtsp_url(2)}" [PyStr sub_url] ;;
  print "\n2. 當前 PTZ 狀態:" [] ;;
  get_status ;;
  print "\n3. 當前座標:" [] ;;
  position <- get_current_position ;;
  print "   Pan={pan:.4f}, Tilt={tilt:.4f}, Zoom={zoom:.4f}"
    [PyFloat (fst (fst position)); PyFloat (snd (fst position));
     PyFloat (snd position)] ;;
  print "\n4. 絕對位置移動 (移動到中心位置):" [] ;;
  move_to_position zero zero one ;;
  call (sleep three) ;;
  print "\n5. 移動後座標:" [] ;;
  get_current_position ;;
  print "\n6. 預設位置:" [] ;;
  get_presets ;;
  print "\n7. 設定新預設位置:" [] ;;
  move_to_position half three_tenths one ;;
  call (sleep two) ;;
  token <- set_preset "ONVIF_測試位置" None ;;
  print "\n8. 移動到 Home 位置:" [] ;;
  goto_home one ;;
  call (sleep three) ;;
  (if truthy (Some token) then
     print "\n9. 回到預設位置:" [] ;;
     goto_preset token one ;;
     call (sleep three)
   else ret tt) ;;
  print ("\n" ++ string_times "=" 60) [] ;;
  print "示範完成" [] ;;
  print (string_times "=" 60) [] ;;
  print "\nONVIF 的主要優勢：" [] ;;
  print "1. ✓ 支援絕對座標（可以知道精確位置）" [] ;;
  print "2. ✓ 標準化協定（可整合 NVR/NAS）" [] ;;
  print "3. ✓ 支援 RTSP 串流" [] ;;
  print "4. ✓ PTZ 控制功能完整" [].

(** [demo]: the controller of the run is the one built here; the integer
    arguments of [time.sleep] are taken as floats. *)
Definition demo : M unit :=
  print (string_times "=" 60) [] ;;
  print "Tapo C225 ONVIF PTZ 控制系統 - 示範" [] ;;
  print (string_times "=" 60) [] ;;
  modify_self (fun _ => demo_controller) ;;
  ok <- connect ;;
  if negb ok then ret tt else demo_tour.

(** ** A scripted camera, for running the methods on concrete inputs *)

Module Demo.

(** [time.sleep]: a negative length or a NaN is a [ValueError], an
    infinite one an [OverflowError].  (CPython also refuses finite lengths
    beyond the range of its clock; no run below uses one.) *)
Definition time_sleep (duration : float) : outcome unit :=
  match duration with
  | S754_nan => Raised (mkExn "ValueError" "Invalid value NaN (not a number)")
  | S754_infinity _ =>
      Raised (mkExn "OverflowError" "timestamp too large to convert to C _PyTime_t")
  | _ =>
      if SFltb duration zero
      then Raised (mkExn "ValueError" "sleep length must be non-negative")
      else Returned tt
  end.

Definition profile : Profile :=
  mkProfile "profile_1" "mainStream" (Has (mkPTZConfiguration "PTZToken")).

Definition position (x y z : float) : PTZVector :=
  mkPTZVector (Has (mkVector2D x y None)) (Has (mkVector1D z None)).

Definition status_at (pos : attr PTZVector) : PTZStatus :=
  mkPTZStatus pos (Has (mkPTZMoveStatus (Has "IDLE") (Has "IDLE")))
    IsNone "2025-01-01T00:00:00Z".

(** A camera without zoom, as the library presents it: the optional
    [Zoom] element of the position is there and is [None]. *)
Definition position_no_zoom (x y : float) : PTZVector :=
  mkPTZVector (Has (mkVector2D x y None)) IsNone.

Definition options (pan_tilt : list Space2DDescription)
  (zoom : list Space1DDescription) : PTZConfigurationOptions :=
  mkOptions (Has (mkPTZSpaces (Has pan_tilt) (Has zoom))).

Definition fault : Exn := mkExn "Fault" "device error".

(** What the scripted camera is told to do. *)
Record Script : Type := mkScript
  { status_of : list Event -> outcome PTZStatus;
    options_of : outcome PTZConfigurationOptions;
    failing : string -> bool }.

Definition answer (s : Script) (h : list Event) {R : Type} (c : Call R)
  : outcome R :=
  match c in Call R return outcome R with
  | ONVIFCamera _ _ _ _ _ => Returned 1%nat
  | GetDeviceInformation _ =>
      Returned (mkDeviceInformation "TP-Link" "Tapo C225" "1.0.7")
  | GetCapabilities _ => Returned "capabilities"
  | create_media_service _ => Returned 2%nat
  | create_ptz_service _ => Returned 3%nat
  | create_type _ _ => Returned tt
  | GetProfiles _ => Returned [profile]
  | GetStreamUri _ _ => Returned (mkMediaUri "rtsp://192.168.1.100:554/stream1")
  | GetConfigurationOptions _ _ => options_of s
  | GetStatus _ _ => status_of s h
  | AbsoluteMove _ _ => Returned tt
  | RelativeMove _ _ => Returned tt
  | ContinuousMove _ _ => Returned tt
  | Stop _ _ => Returned tt
  | GetPresets _ _ => Returned [mkPTZPreset "1" "door" IsNone]
  | GotoPreset _ _ => Returned tt
  | SetPreset _ r =>
      Returned (match sp_PresetToken r with Some t => t | None => "2" end)
  | RemovePreset _ _ => Returned tt
  | GotoHomePosition _ _ => Returned tt
  | SetHomePosition _ _ => Returned tt
  | GetNodes _ => Returned ["node"]
  | sleep d => time_sleep d
  end.

Definition to_native_vector (p : PTZVector) : pyval :=
  PyDict
    [("PanTilt",
      match PanTilt p with
      | Has v => PyDict [("x", PyFloat (v2_x v)); ("y", PyFloat (v2_y v))]
      | _ => PyNone
      end);
     ("Zoom",
      match Zoom p with
      | Has v => PyDict [("x", PyFloat (v1_x v))]
      | _ => PyNone
      end)].

Definition to_native (o : ZeepObject) : pyval :=
  match o with
  | ZStatus s =>
      PyDict
        [("Position",
          match Position s with
          | Has p => to_native_vector p
          | _ => PyNone
          end);
         ("UtcTime", PyStr (UtcTime s))]
  | ZDeviceInformation d =>
      PyDict
        [("Manufacturer", PyStr (Manufacturer d));
         ("Model", PyStr (Model d));
         ("FirmwareVersion", PyStr (FirmwareVersion d))]
  | ZCapabilities c => PyDict [("Capabilities", PyStr c)]
  | ZNodes l => PyList (List.map PyStr l)
  end.

Definition camera (s : Script) : Env :=
  {| respond := fun R h c =>
       if failing s (call_name c) then Raised fault else answer s h c;
     serialize_object := to_native |}.

(** A camera resting at a fixed position. *)
Definition resting (pos : attr PTZVector) (bad : string -> bool) : Script :=
  {| status_of := fun _ => Returned (status_at pos);
     options_of := Returned (options [] []);
     failing := bad |}.

(** A camera that goes where the last [AbsoluteMove] sent it. *)
Fixpoint last_target (h : list Event) (current : attr PTZVector)
  : attr PTZVector :=
  match h with
  | [] => current
  | e :: rest =>
      last_target rest
        (match ev_AbsoluteMove e with
         | Some r =>
             match am_Position r with
             | Some p => Has p
             | None => current
             end
         | None => current
         end)
  end.

Definition moving (start : attr PTZVector) : Script :=
  {| status_of := fun h => Returned (status_at (last_target h start));
     options_of := Returned (options [] []);
     failing := fun _ => false |}.

Definition never : string -> bool := fun _ => false.
Definition only (name : string) : string -> bool := String.eqb name.

(** A controller that has been connected: service and profile are set. *)
Definition connected : Controller :=
  set_ptz_service (Some 3%nat)
    (set_media_profile (Some profile)
       (set_media_service (Some 2%nat)
          (set_camera (Some 1%nat)
             (__init__ "192.168.1.100" 2020 "admin" "secret" None)))).

End Demo.

(** * Vocabulary of the statements

    Views of the call log, the shapes the theorems speak of, and the
    scripted cameras their examples run on. *)

(** A camera resting at pan 0.5, tilt 0.5, zoom 0.0, on which every call
    succeeds. *)
Definition demo_env : Env :=
  Demo.camera (Demo.resting (Has (Demo.position half half zero)) Demo.never).

(** [sent] is [v] clamped to [rng]: it is [max(lo, min(hi, v))], and when
    [lo <= v <= hi] it is [v] again -- equal to [v] under [==], and the
    very same float unless [v] is a zero (the clamp may return the bound
    [0.0] for [-0.0], and conversely). *)
Definition clamped_to (rng : float * float) (v sent : float) : Prop :=
  sent = py_max (fst rng) (py_min (snd rng) v) /\
  (SFleb (fst rng) v = true -> SFleb v (snd rng) = true ->
   SFeqb sent v = true /\ ((forall s, v <> S754_zero s) -> sent = v)).

(** The request [r] carries, on each axis whose argument is given, the
    argument clamped to the range stored in the controller. *)
Definition sends_clamped (self : Controller) (pan tilt zoom : option float)
  (r : AbsoluteMoveRequest) : Prop :=
  (forall v, pan = Some v ->
     exists pos pt, am_Position r = Some pos /\ PanTilt pos = Has pt /\
                    clamped_to (pan_range self) v (v2_x pt)) /\
  (forall v, tilt = Some v ->
     exists pos pt, am_Position r = Some pos /\ PanTilt pos = Has pt /\
                    clamped_to (tilt_range self) v (v2_y pt)) /\
  (forall v, zoom = Some v ->
     exists pos z, am_Position r = Some pos /\ Zoom pos = Has z /\
                   clamped_to (zoom_range self) v (v1_x z)).

(** The position [seed] with the given axes overwritten by their clamped
    arguments, every other component kept. *)
Definition overwrite_axes (self : Controller) (pan tilt zoom : option float)
  (seed : PTZVector) : PTZVector :=
  mkPTZVector
    (match PanTilt seed with
     | Has v =>
         Has (mkVector2D
                (match pan with
                 | Some p => clamp (pan_range self) p
                 | None => v2_x v
                 end)
                (match tilt with
                 | Some t => clamp (tilt_range self) t
                 | None => v2_y v
                 end)
                (v2_space v))
     | other => other
     end)
    (match Zoom seed with
     | Has v =>
         Has (mkVector1D
                (match zoom with
                 | Some z => clamp (zoom_range self) z
                 | None => v1_x v
                 end)
                (v1_space v))
     | other => other
     end).

(** The run made exactly the calls [c], [g], [e], of which [g] is the
    [GetStatus] whose position seeds the request [r]. *)
Definition seeded_from_status (cs : list Event) (self : Controller)
  (pan tilt zoom : option float) (e : Event) (r : AbsoluteMoveRequest) : Prop :=
  exists (c g : Event) (status : PTZStatus),
    cs = [c; g; e] /\
    ev_GetStatus g = Some (Returned status) /\
    am_Position r =
      option_map (overwrite_axes self pan tilt zoom)
        (attr_value (Position status)) /\
    (forall seed sent,
       Position status = Has seed -> am_Position r = Some sent ->
       (pan = None -> tilt = None -> PanTilt sent = PanTilt seed) /\
       (zoom = None -> Zoom sent = Zoom seed)).

(** The options the device returned to [GetConfigurationOptions] during
    the run, if the call was made and did not fail. *)
Fixpoint reported_options (cs : list Event) : option PTZConfigurationOptions :=
  match cs with
  | [] => None
  | e :: rest =>
      match ev_GetConfigurationOptions e with
      | Some (Returned o) => Some o
      | _ => reported_options rest
      end
  end.

Definition reported_spaces (o : option PTZConfigurationOptions)
  : option PTZSpaces :=
  match o with
  | Some o => attr_value (Spaces o)
  | None => None
  end.

(** The first [AbsolutePanTiltPositionSpace] reported, if there is one. *)
Definition first_pan_tilt_space (sp : option PTZSpaces)
  : option Space2DDescription :=
  match sp with
  | Some sp =>
      match AbsolutePanTiltPositionSpace sp with
      | Has (s :: _) => Some s
      | _ => None
      end
  | None => None
  end.

(** The first [AbsoluteZoomPositionSpace] reported, if there is one. *)
Definition first_zoom_space (sp : option PTZSpaces)
  : option Space1DDescription :=
  match sp with
  | Some sp =>
      match AbsoluteZoomPositionSpace sp with
      | Has (s :: _) => Some s
      | _ => None
      end
  | None => None
  end.

(** The ranges of [self] are those of the first spaces reported in the
    log [cs], and the defaults of [__init__] where none was reported. *)
Definition discovered (self : Controller) (cs : list Event) : Prop :=
  let spaces := reported_spaces (reported_options cs) in
  match first_pan_tilt_space spaces with
  | Some s =>
      pan_range self = (Min (XRange s), Max (XRange s)) /\
      tilt_range self = (Min (YRange s), Max (YRange s))
  | None =>
      pan_range self = (neg_one, one) /\ tilt_range self = (neg_one, one)
  end /\
  match first_zoom_space spaces with
  | Some s => zoom_range self = (Min (s1_XRange s), Max (s1_XRange s))
  | None => zoom_range self = (zero, one)
  end.

Definition ev_create_type (e : Event) : option string :=
  match fst (projT2 e) with create_type _ name => Some name | _ => None end.

(** The calls made by [_get_ptz_config_options]. *)
Definition in_config_probe (e : Event) : bool :=
  String.eqb (ev_name e) "GetConfigurationOptions"
  || match ev_create_type e with
     | Some name => String.eqb name "GetConfigurationOptions"
     | None => false
     end.

(** What [connect] asks the device about its coordinate spaces once the
    PTZ service [ptz] and the profile [profile] are there, [established]
    being the calls of the run so far: the request is created and, unless
    that fails or the profile has no PTZ configuration,
    [GetConfigurationOptions] is called for the token of that
    configuration.  Each call comes with the answer the device gives at
    that point; the report is the object [GetConfigurationOptions]
    returned, if the call was reached and did not fail. *)
Definition range_probe (env : Env) (h established : list Event)
  (ptz : handle) (profile : Profile)
  : list Event * option PTZConfigurationOptions :=
  let create := create_type ptz "GetConfigurationOptions" in
  let created := respond env unit (h ++ established) create in
  match created, PTZConfiguration_ profile with
  | Returned _, Has cfg =>
      let query := GetConfigurationOptions ptz (cfg_token cfg) in
      let answer :=
        respond env PTZConfigurationOptions
          (h ++ established ++ [ev create created]) query in
      ([ev create created; ev query answer],
       match answer with
       | Returned options => Some options
       | Raised _ => None
       end)
  | _, _ => ([ev create created], None)
  end.

(** Each range of [after] is that of the first matching space of
    [report], and that of [before] where [report] has no such space. *)
Definition ranges_follow (report : option PTZConfigurationOptions)
  (before after : Controller) : Prop :=
  match first_pan_tilt_space (reported_spaces report) with
  | Some s =>
      pan_range after = (Min (XRange s), Max (XRange s)) /\
      tilt_range after = (Min (YRange s), Max (YRange s))
  | None =>
      pan_range after = pan_range before /\
      tilt_range after = tilt_range before
  end /\
  match first_zoom_space (reported_spaces report) with
  | Some s => zoom_range after = (Min (s1_XRange s), Max (s1_XRange s))
  | None => zoom_range after = zoom_range before
  end.

(** The ranges are those [__init__] sets. *)
Definition has_default_ranges (c : Controller) : Prop :=
  pan_range c = (neg_one, one) /\
  tilt_range c = (neg_one, one) /\
  zoom_range c = (zero, one).

(** Where [report] has no matching space, the range of [after] is the
    default. *)
Definition defaults_where_unreported (report : option PTZConfigurationOptions)
  (after : Controller) : Prop :=
  (first_pan_tilt_space (reported_spaces report) = None ->
   pan_range after = (neg_one, one) /\ tilt_range after = (neg_one, one)) /\
  (first_zoom_space (reported_spaces report) = None ->
   zoom_range after = (zero, one)).

(** A run of [connect] on [before] that logged [cs] and left [after] has
    asked the device for its spaces, with the PTZ service and the profile
    it stored, as the last thing it did, and the ranges of [after] follow
    the report: they are the reported ones, the ranges of [before] stay
    where none is reported, and these are the defaults if [before] had
    the defaults. *)
Definition discovers (env : Env) (h : list Event) (before : Controller)
  (cs : list Event) (after : Controller) : Prop :=
  exists established ptz profile,
    ptz_service after = Some ptz /\
    media_profile after = Some profile /\
    Forall (fun e => in_config_probe e = false) established /\
    cs = established ++ fst (range_probe env h established ptz profile) /\
    ranges_follow (snd (range_probe env h established ptz profile))
      before after /\
    (has_default_ranges before ->
     defaults_where_unreported
       (snd (range_probe env h established ptz profile)) after).

(** A camera reporting pan -2..2, tilt -1..1 and zoom 0..3. *)
Definition wide_camera : Env :=
  Demo.camera
    {| Demo.status_of := fun _ => Returned (Demo.status_at IsNone);
       Demo.options_of :=
         Returned
           (Demo.options
              [mkSpace2D "PositionGenericSpace"
                 (mkFloatRange neg_two two) (mkFloatRange neg_one one)]
              [mkSpace1D "PositionGenericSpace" (mkFloatRange zero three)]);
       Demo.failing := Demo.never |}.

Definition fresh_controller : Controller :=
  __init__ "192.168.1.100" 2020 "admin" "secret" None.

Definition ev_ContinuousMove (e : Event) : option ContinuousMoveRequest :=
  match fst (projT2 e) with ContinuousMove _ r => Some r | _ => None end.

Definition ev_Stop (e : Event) : option StopRequest :=
  match fst (projT2 e) with Stop _ r => Some r | _ => None end.

Definition ev_sleep (e : Event) : option float :=
  match fst (projT2 e) with sleep d => Some d | _ => None end.

(** [e] is a call of the operation [name] that returned. *)
Definition succeeded (name : string) (e : Event) : Prop :=
  ev_name e = name /\ ev_raised e = None.

(** The log [cs] of a run of [continuous_move]:
    - every [ContinuousMove] in it carries the given velocity;
    - if [ContinuousMove] returned and the wait did not raise, the log is
      a [create_type], the [ContinuousMove], the wait of the given
      duration and a [Stop] of pan/tilt and zoom, in this order;
    - a [Stop] only ever comes after a [ContinuousMove] that returned;
    - if [ContinuousMove] raised there is no [Stop]. *)
Definition continuous_move_in_order (cs : list Event) (self : Controller)
  (velocity : xyz) (duration : float) : Prop :=
  (forall e req, In e cs -> ev_ContinuousMove e = Some req ->
     cm_Velocity req = velocity) /\
  (forall e, In e cs -> succeeded "ContinuousMove" e ->
     (forall w, In w cs -> ev_name w = "sleep" -> ev_raised w = None) ->
     exists c w s tok,
       cs = [c; e; w; s] /\
       ev_sleep w = Some duration /\
       option_map token (media_profile self) = Some tok /\
       ev_Stop s = Some (mkStop tok true true)) /\
  (forall i s, nth_error cs i = Some s -> ev_name s = "Stop" ->
     exists j e, (j < i)%nat /\ nth_error cs j = Some e /\
                 succeeded "ContinuousMove" e) /\
  (forall e x, In e cs -> ev_name e = "ContinuousMove" -> ev_raised e = Some x ->
     count_calls "Stop" cs = 0%nat).

(** The public operations, as one family. *)
Inductive Operation : Type :=
| op_connect
| op_get_rtsp_url (stream_index : Z)
| op_get_onvif_stream_url
| op_absolute_move (pan tilt zoom : option float) (speed : float)
| op_move_to_position (pan tilt speed : float)
| op_relative_move (pan_delta tilt_delta zoom_delta speed : float)
| op_continuous_move (pan_speed tilt_speed zoom_speed duration : float)
| op_stop
| op_get_status
| op_get_current_position
| op_get_presets
| op_goto_preset (preset_token : string) (speed : float)
| op_set_preset (preset_name : string) (preset_token : option string)
| op_remove_preset (preset_token : string)
| op_goto_home (speed : float)
| op_set_home
| op_get_device_info
| op_get_capabilities
| op_get_ptz_nodes.

Definition py_position (p : float * float * float) : pyval :=
  PyTuple [PyFloat (fst (fst p)); PyFloat (snd (fst p)); PyFloat (snd p)].

(** The value a method hands back, as a Python value. *)
Definition returning {A : Type} (to_py : A -> pyval) (m : M A) : M pyval :=
  a <- m ;; ret (to_py a).

Definition py_none (_ : unit) : pyval := PyNone.

Definition invoke (op : Operation) : M pyval :=
  match op with
  | op_connect => returning PyBool connect
  | op_get_rtsp_url i => returning PyStr (get_rtsp_url i)
  | op_get_onvif_stream_url => returning PyStr get_onvif_stream_url
  | op_absolute_move pan tilt zoom speed =>
      returning PyBool (absolute_move pan tilt zoom speed)
  | op_move_to_position pan tilt speed =>
      returning PyBool (move_to_position pan tilt speed)
  | op_relative_move pd td zd speed =>
      returning PyBool (relative_move pd td zd speed)
  | op_continuous_move ps ts zs duration =>
      returning py_none (continuous_move ps ts zs duration)
  | op_stop => returning py_none stop
  | op_get_status => get_status
  | op_get_current_position => returning py_position get_current_position
  | op_get_presets => get_presets
  | op_goto_preset t speed => returning py_none (goto_preset t speed)
  | op_set_preset n t => returning PyStr (set_preset n t)
  | op_remove_preset t => returning py_none (remove_preset t)
  | op_goto_home speed => returning py_none (goto_home speed)
  | op_set_home => returning py_none set_home
  | op_get_device_info => get_device_info
  | op_get_capabilities => get_capabilities
  | op_get_ptz_nodes => get_ptz_nodes
  end.

(** The library operation behind each of the nine command wrappers. *)
Definition underlying (op : Operation) : option string :=
  match op with
  | op_absolute_move _ _ _ _ => Some "AbsoluteMove"
  | op_relative_move _ _ _ _ => Some "RelativeMove"
  | op_continuous_move _ _ _ _ => Some "ContinuousMove"
  | op_stop => Some "Stop"
  | op_goto_preset _ _ => Some "GotoPreset"
  | op_set_preset _ _ => Some "SetPreset"
  | op_remove_preset _ => Some "RemovePreset"
  | op_goto_home _ => Some "GotoHomePosition"
  | op_set_home => Some "SetHomePosition"
  | _ => None
  end.

(** The line a command wrapper prints when it fails. *)
Definition failure_line (op : Operation) : string :=
  match op with
  | op_absolute_move _ _ _ _ => "✗ 絕對移動失敗: {e}"
  | op_relative_move _ _ _ _ => "✗ 相對移動失敗: {e}"
  | op_continuous_move _ _ _ _ => "✗ 連續移動失敗: {e}"
  | op_stop => "✗ 停止失敗: {e}"
  | op_goto_preset _ _ => "✗ 移動到預設位置失敗: {e}"
  | op_set_preset _ _ => "✗ 設定預設位置失敗: {e}"
  | op_remove_preset _ => "✗ 移除預設位置失敗: {e}"
  | op_goto_home _ => "✗ 移動到 Home 位置失敗: {e}"
  | op_set_home => "✗ 設定 Home 位置失敗: {e}"
  | _ => ""
  end.

(** What each operation returns from its [except] branch;
    [get_rtsp_url] has none. *)
Definition fallback (op : Operation) : option pyval :=
  match op with
  | op_connect
  | op_absolute_move _ _ _ _
  | op_move_to_position _ _ _
  | op_relative_move _ _ _ _ => Some (PyBool false)
  | op_get_rtsp_url _ => None
  | op_get_onvif_stream_url
  | op_set_preset _ _ => Some (PyStr "")
  | op_get_status
  | op_get_presets
  | op_get_device_info
  | op_get_capabilities => Some (PyDict [])
  | op_get_current_position => Some (py_position (zero, zero, zero))
  | op_get_ptz_nodes => Some (PyList [])
  | op_continuous_move _ _ _ _
  | op_stop
  | op_goto_preset _ _
  | op_remove_preset _
  | op_goto_home _
  | op_set_home => Some PyNone
  end.

(** The failed calls an operation gets over without taking its [except]
    branch: for [connect], those of the nested
    [_get_ptz_config_options], which has a handler of its own. *)
Definition swallowed (op : Operation) (e : Event) : bool :=
  match op with
  | op_connect => in_config_probe e
  | _ => false
  end.

(** No component of the reported position is there and [None]. *)
Definition printable (status : PTZStatus) : Prop :=
  match Position status with
  | Has pos => PanTilt pos <> IsNone /\ Zoom pos <> IsNone
  | _ => True
  end.

(** A camera at pan 0.5, tilt 0.5 that has no zoom: the [Zoom] of the
    position is [None]. *)
Definition camera_without_zoom : Env :=
  Demo.camera
    (Demo.resting (Has (Demo.position_no_zoom half half)) Demo.never).

(** The method leaves every field of the controller as it was. *)
Definition keeps_controller {A : Type} (m : M A) : Prop :=
  forall env h self, self_after (run m env h self) = self.

(** On a connected controller, a run of the method makes exactly one
    call, a [GetStatus], answered by the environment at the time of the
    run. *)
Definition asks_device_afresh {A : Type} (m : M A) : Prop :=
  forall env h self ptz p,
    ptz_service self = Some ptz -> media_profile self = Some p ->
    calls (run m env h self) =
      [ev (GetStatus ptz (token p))
          (respond env PTZStatus h (GetStatus ptz (token p)))].

(** The result is a function of the answers to the [GetStatus] calls of
    the run alone: two runs, at any two moments and on any two
    controllers, that get the same answers return the same value. *)
Definition answer_decides {A : Type} (m : M A) : Prop :=
  forall env h self env' h' self',
    serialize_object env = serialize_object env' ->
    List.map ev_GetStatus (calls (run m env h self)) =
    List.map ev_GetStatus (calls (run m env' h' self')) ->
    value (run m env h self) = value (run m env' h' self').

(** A camera at the origin that goes where [AbsoluteMove] sends it. *)
Definition moving_camera : Env :=
  Demo.camera (Demo.moving (Has (Demo.position zero zero zero))).

(** A camera on which every [GotoPreset] fails. *)
Definition camera_refusing_presets : Env :=
  Demo.camera
    (Demo.resting (Has (Demo.position zero zero zero)) (Demo.only "GotoPreset")).

(** A computation that makes no call and leaves the controller alone. *)
Definition quiet {A : Type} (m : M A) : Prop :=
  forall env h st,
    self_of (state (m env h st)) = self_of st /\
    calls_of (state (m env h st)) = calls_of st.

(** A camera on which [GetProfiles] fails. *)
Definition camera_without_profiles : Env :=
  Demo.camera (Demo.resting IsNone (Demo.only "GetProfiles")).

(** A camera on which [GetConfigurationOptions] fails. *)
Definition camera_without_options : Env :=
  Demo.camera (Demo.resting IsNone (Demo.only "GetConfigurationOptions")).

(** The attribute is missing or [None]. *)
Definition lacking {A : Type} (a : attr A) : Prop := attr_value a = None.

(** What [get_current_position] returns for an answer [o] to
    [GetStatus]: zeros when the call raised or the status has no
    position; otherwise a triple in which a component the position lacks
    is zero, and which is the reported position when nothing lacks. *)
Definition position_or_zeros (o : outcome PTZStatus)
  (result : outcome (float * float * float)) : Prop :=
  match o with
  | Raised _ => result = Returned (zero, zero, zero)
  | Returned status =>
      match Position status with
      | Has pos =>
          exists pan tilt zoom,
            result = Returned (pan, tilt, zoom) /\
            (lacking (PanTilt pos) -> pan = zero /\ tilt = zero) /\
            (lacking (Zoom pos) -> zoom = zero) /\
            (forall pt z, PanTilt pos = Has pt -> Zoom pos = Has z ->
                          (pan, tilt, zoom) = (v2_x pt, v2_y pt, v1_x z))
      | _ => result = Returned (zero, zero, zero)
      end
  end.

(** A camera at the origin, and one whose [GetStatus] fails. *)
Definition camera_at_origin : Env :=
  Demo.camera (Demo.resting (Has (Demo.position zero zero zero)) Demo.never).

Definition camera_not_answering : Env :=
  Demo.camera
    (Demo.resting (Has (Demo.position half half half)) (Demo.only "GetStatus")).

(** ** Vocabulary of the further properties *)

(** [x] lies between the bounds of [rng]. *)
Definition within (rng : float * float) (x : float) : Prop :=
  SFleb (fst rng) x = true /\ SFleb x (snd rng) = true.

(** On each axis whose argument [v] is given, the request [r] carries a
    coordinate [x] with [Q rng v x], [rng] being the stored range of the
    axis. *)
Definition sends_such_that (Q : float * float -> float -> float -> Prop)
  (self : Controller) (pan tilt zoom : option float)
  (r : AbsoluteMoveRequest) : Prop :=
  (forall v, pan = Some v ->
     exists pos pt, am_Position r = Some pos /\ PanTilt pos = Has pt /\
                    Q (pan_range self) v (v2_x pt)) /\
  (forall v, tilt = Some v ->
     exists pos pt, am_Position r = Some pos /\ PanTilt pos = Has pt /\
                    Q (tilt_range self) v (v2_y pt)) /\
  (forall v, zoom = Some v ->
     exists pos z, am_Position r = Some pos /\ Zoom pos = Has z /\
                   Q (zoom_range self) v (v1_x z)).

(** An axis is asked for that the reported position does not have: the
    position is [None], or the [PanTilt] (for [pan], [tilt]) or the
    [Zoom] (for [zoom]) is missing or [None]. *)
Definition asks_for_missing_component (pan tilt zoom : option float)
  (status : PTZStatus) : Prop :=
  ((pan <> None \/ tilt <> None) /\
   field_on (attr_value (Position status)) PanTilt = None) \/
  (zoom <> None /\ field_on (attr_value (Position status)) Zoom = None).

(** The [Speed] of a request that has one. *)
Definition ev_Speed (e : Event) : option xyz :=
  match fst (projT2 e) with
  | AbsoluteMove _ r => Some (am_Speed r)
  | RelativeMove _ r => Some (rm_Speed r)
  | GotoPreset _ r => Some (gp_Speed r)
  | GotoHomePosition _ r => Some (gh_Speed r)
  | _ => None
  end.

(** The [speed] argument of the operations that take one. *)
Definition speed_of (op : Operation) : option float :=
  match op with
  | op_absolute_move _ _ _ speed
  | op_move_to_position _ _ speed
  | op_relative_move _ _ _ speed
  | op_goto_preset _ speed
  | op_goto_home speed => Some speed
  | _ => None
  end.

(** [pan_left], [pan_right], [tilt_up], [tilt_down] as one family. *)
Inductive Direction : Type := PanLeft | PanRight | TiltUp | TiltDown.

Definition steer (d : Direction) (speed duration : float) : M unit :=
  match d with
  | PanLeft => pan_left speed duration
  | PanRight => pan_right speed duration
  | TiltUp => tilt_up speed duration
  | TiltDown => tilt_down speed duration
  end.

(** The velocity a direction stands for: one axis only, negated for left
    and down. *)
Definition steer_velocity (d : Direction) (speed : float) : xyz :=
  match d with
  | PanLeft => mkXyz (neg speed) zero zero
  | PanRight => mkXyz speed zero zero
  | TiltUp => mkXyz zero speed zero
  | TiltDown => mkXyz zero (neg speed) zero
  end.

Definition request_GetStreamUri {R : Type} (c : Call R)
  : outcome R -> option (GetStreamUriRequest * outcome MediaUri) :=
  match c in Call R
        return outcome R -> option (GetStreamUriRequest * outcome MediaUri) with
  | GetStreamUri _ r => fun o => Some (r, o)
  | _ => fun _ => None
  end.

Definition ev_GetStreamUri (e : Event)
  : option (GetStreamUriRequest * outcome MediaUri) :=
  request_GetStreamUri (fst (projT2 e)) (snd (projT2 e)).

Definition map_outcome {A B : Type} (f : A -> B) (o : outcome A) : outcome B :=
  match o with
  | Returned a => Returned (f a)
  | Raised x => Raised x
  end.

Definition response_object {R : Type} (c : Call R)
  : outcome R -> option (outcome ZeepObject) :=
  match c in Call R return outcome R -> option (outcome ZeepObject) with
  | GetDeviceInformation _ => fun o => Some (map_outcome ZDeviceInformation o)
  | GetCapabilities _ => fun o => Some (map_outcome ZCapabilities o)
  | GetNodes _ => fun o => Some (map_outcome ZNodes o)
  | _ => fun _ => None
  end.

(** The answer to [GetDeviceInformation], [GetCapabilities] or
    [GetNodes], as the object handed to [serialize_object]. *)
Definition ev_response (e : Event) : option (outcome ZeepObject) :=
  response_object (fst (projT2 e)) (snd (projT2 e)).

Definition request_SetPreset {R : Type} (c : Call R)
  : outcome R -> option (SetPresetRequest * outcome string) :=
  match c in Call R
        return outcome R -> option (SetPresetRequest * outcome string) with
  | SetPreset _ r => fun o => Some (r, o)
  | _ => fun _ => None
  end.

Definition ev_SetPreset (e : Event)
  : option (SetPresetRequest * outcome string) :=
  request_SetPreset (fst (projT2 e)) (snd (projT2 e)).

(** The token [set_preset] puts in its request: the one given, and none
    when that is [None] or the empty string. *)
Definition token_sent (preset_token : option string) : option string :=
  match preset_token with
  | Some EmptyString => None
  | given => given
  end.

(** The [ProfileToken] of a request that has one. *)
Definition ev_ProfileToken (e : Event) : option string :=
  match fst (projT2 e) with
  | GetStreamUri _ r => Some (su_ProfileToken r)
  | GetStatus _ t => Some t
  | AbsoluteMove _ r => Some (am_ProfileToken r)
  | RelativeMove _ r => Some (rm_ProfileToken r)
  | ContinuousMove _ r => Some (cm_ProfileToken r)
  | Stop _ r => Some (st_ProfileToken r)
  | GetPresets _ t => Some t
  | GotoPreset _ r => Some (gp_ProfileToken r)
  | SetPreset _ r => Some (sp_ProfileToken r)
  | RemovePreset _ r => Some (rp_ProfileToken r)
  | GotoHomePosition _ r => Some (gh_ProfileToken r)
  | SetHomePosition _ t => Some t
  | _ => None
  end.

(** The fields given to [__init__] are those of [before]. *)
Definition same_settings (before after : Controller) : Prop :=
  host after = host before /\
  port after = port before /\
  user after = user before /\
  password after = password before /\
  wsdl_dir after = wsdl_dir before.

(** The log [cs] of a successful [connect] and the controller it leaves:
    the camera is built from the stored settings (with the WSDL directory
    only if it is a non-empty string), then come the device information,
    the media service, the profiles, the PTZ service, and the calls of
    [_get_ptz_config_options]; the handles and the first profile are
    stored. *)
Definition connected_through (cs : list Event) (before after : Controller)
  : Prop :=
  exists cam media ptz profile others info probe,
    cs = ev (ONVIFCamera (host before) (port before) (user before)
               (password before)
               (if truthy (wsdl_dir before) then wsdl_dir before else None))
            (Returned cam)
         :: ev (GetDeviceInformation cam) (Returned info)
         :: ev (create_media_service cam) (Returned media)
         :: ev (GetProfiles media) (Returned (profile :: others))
         :: ev (create_ptz_service cam) (Returned ptz)
         :: probe /\
    camera after = Some cam /\
    media_service after = Some media /\
    ptz_service after = Some ptz /\
    media_profile after = Some profile.

(** Each range of [after] is the one of the first space reported in
    [cs], or that of [before] where none was reported. *)
Definition discovered_or_kept (before after : Controller) (cs : list Event)
  : Prop :=
  let spaces := reported_spaces (reported_options cs) in
  match first_pan_tilt_space spaces with
  | Some s =>
      pan_range after = (Min (XRange s), Max (XRange s)) /\
      tilt_range after = (Min (YRange s), Max (YRange s))
  | None =>
      pan_range after = pan_range before /\
      tilt_range after = tilt_range before
  end /\
  match first_zoom_space spaces with
  | Some s => zoom_range after = (Min (s1_XRange s), Max (s1_XRange s))
  | None => zoom_range after = zoom_range before
  end.

(** The library operations each public operation may call. *)
Definition may_issue (op : Operation) : list string :=
  match op with
  | op_connect =>
      ["ONVIFCamera"; "GetDeviceInformation"; "create_media_service";
       "GetProfiles"; "create_ptz_service"; "create_type";
       "GetConfigurationOptions"]
  | op_get_rtsp_url _ => []
  | op_get_onvif_stream_url => ["create_type"; "GetStreamUri"]
  | op_absolute_move _ _ _ _
  | op_move_to_position _ _ _ => ["create_type"; "GetStatus"; "AbsoluteMove"]
  | op_relative_move _ _ _ _ => ["create_type"; "RelativeMove"]
  | op_continuous_move _ _ _ _ =>
      ["create_type"; "ContinuousMove"; "sleep"; "Stop"]
  | op_stop => ["Stop"]
  | op_get_status
  | op_get_current_position => ["GetStatus"]
  | op_get_presets => ["GetPresets"]
  | op_goto_preset _ _ => ["create_type"; "GotoPreset"]
  | op_set_preset _ _ => ["create_type"; "SetPreset"]
  | op_remove_preset _ => ["RemovePreset"]
  | op_goto_home _ => ["create_type"; "GotoHomePosition"]
  | op_set_home => ["SetHomePosition"]
  | op_get_device_info => ["GetDeviceInformation"]
  | op_get_capabilities => ["GetCapabilities"]
  | op_get_ptz_nodes => ["GetNodes"]
  end.

Definition outcome_GetPresets {R : Type} (c : Call R)
  : outcome R -> option (outcome (list PTZPreset)) :=
  match c in Call R return outcome R -> option (outcome (list PTZPreset)) with
  | GetPresets _ _ => fun o => Some o
  | _ => fun _ => None
  end.

Definition ev_GetPresets (e : Event) : option (outcome (list PTZPreset)) :=
  outcome_GetPresets (fst (projT2 e)) (snd (projT2 e)).

(** [d.get(key)] *)
Fixpoint dict_get (d : list (string * pyval)) (key : string) : option pyval :=
  match d with
  | [] => None
  | (k, v) :: rest => if String.eqb k key then Some v else dict_get rest key
  end.

(** The name of the last preset of the list that has the token [t]. *)
Fixpoint last_name (presets : list PTZPreset) (t : string) : option pyval :=
  match presets with
  | [] => None
  | p :: rest =>
      match last_name rest t with
      | Some n => Some n
      | None =>
          if String.eqb (preset_token p) t
          then Some (PyStr (preset_Name p))
          else None
      end
  end.

(** The preset has a position whose [PanTilt] is [None]. *)
Definition unprintable_preset (p : PTZPreset) : Prop :=
  exists pos, PTZPosition p = Has pos /\ PanTilt pos = IsNone.

(** The dictionary built by the loop of [get_presets]. *)
Definition presets_dict (presets : list PTZPreset) (d : list (string * pyval))
  : list (string * pyval) :=
  List.fold_left
    (fun d p => dict_set d (preset_token p) (PyStr (preset_Name p)))
    presets d.

(** The computation only adds to the log, and what it adds satisfies
    [P]. *)
Definition only_issues (P : Event -> Prop) {A : Type} (m : M A) : Prop :=
  forall env h st,
    exists new,
      calls_of (state (m env h st)) = calls_of st ++ new /\ Forall P new.

(** The library operations [demo] may call. *)
Definition demo_surface : list string :=
  ["ONVIFCamera"; "GetDeviceInformation"; "create_media_service";
   "GetProfiles"; "create_ptz_service"; "create_type";
   "GetConfigurationOptions"; "GetStatus"; "AbsoluteMove"; "sleep";
   "GetPresets"; "SetPreset"; "GotoHomePosition"; "GotoPreset"].


(** The camera of [demo_env], except that [GetPresets] returns the given
    presets. *)
Definition camera_with_presets (presets : list PTZPreset) : Env :=
  {| respond := fun R h c =>
       match c in Call R return outcome R with
       | GetPresets _ _ => Returned presets
       | c' => respond demo_env _ h c'
       end;
     serialize_object := serialize_object demo_env |}.

(** A preset whose position has no pan/tilt: its [PanTilt] is [None]. *)
Definition preset_without_pan_tilt : PTZPreset :=
  mkPTZPreset "2" "gate" (Has (mkPTZVector IsNone IsNone)).

(** A connected controller whose stored pan range is upside down. *)
Definition controller_with_inverted_range : Controller :=
  set_pan_range (one, neg_one) Demo.connected.

(** * Properties *)

(** ** Order facts on floats used by the clamp *)

Lemma SFcompare_Eq_inv (a b : float) :
  SFcompare a b = Some Eq ->
  a = b \/ exists s s', a = S754_zero s /\ b = S754_zero s'.
Proof.
  destruct a as [s1 | s1 | | s1 m1 e1], b as [s2 | s2 | | s2 m2 e2];
    cbn; intros H;
    try discriminate H;
    try (destruct s1; discriminate H);
    try (destruct s2; discriminate H).
  - right. eauto.
  - left. destruct s1, s2; try discriminate H; reflexivity.
  - left.
    destruct s1, s2; try discriminate H;
      destruct (Z.compare e1 e2) eqn:He; try discriminate H;
      apply Z.compare_eq in He; subst e2.
    + injection H as H.
      destruct (Pos.compare_cont Eq m1 m2) eqn:Hm; try discriminate H.
      apply Pos.compare_eq in Hm. now subst.
    + injection H as H. apply Pos.compare_eq in H. now subst.
Qed.

Lemma SFcompare_refl (a : float) :
  a <> S754_nan -> SFcompare a a = Some Eq.
Proof.
  destruct a as [s | s | | s m e]; cbn; try congruence.
  - now destruct s.
  - intros _. rewrite Z.compare_refl.
    change (Pos.compare_cont Eq m m) with (Pos.compare m m).
    rewrite Pos.compare_refl. now destruct s.
Qed.

Lemma SFcompare_not_nan_l (a b : float) (c : comparison) :
  SFcompare a b = Some c -> a <> S754_nan.
Proof. destruct a; cbn; congruence. Qed.

Lemma SFcompare_not_nan_r (a b : float) (c : comparison) :
  SFcompare a b = Some c -> b <> S754_nan.
Proof. destruct a, b; cbn; congruence. Qed.

Lemma SFcompare_zero_r (a : float) (s s' : bool) :
  SFcompare a (S754_zero s) = SFcompare a (S754_zero s').
Proof. now destruct a. Qed.

Lemma SFcompare_zero_l (a : float) (s s' : bool) :
  SFcompare (S754_zero s) a = SFcompare (S754_zero s') a.
Proof. now destruct a. Qed.

Lemma SFcompare_Eq_r (a b c : float) :
  SFcompare b c = Some Eq -> SFcompare a b = SFcompare a c.
Proof.
  intros H.
  destruct (SFcompare_Eq_inv _ _ H) as [-> | (s & s' & -> & ->)];
    [reflexivity | apply SFcompare_zero_r].
Qed.

Lemma SFcompare_Eq_sym (a b : float) :
  SFcompare a b = Some Eq -> SFcompare b a = Some Eq.
Proof.
  intros H.
  destruct (SFcompare_Eq_inv _ _ H) as [-> | (s & s' & -> & ->)];
    [assumption | reflexivity].
Qed.

(** A value within the bounds comes out of the clamp numerically
    unchanged ([==]). *)
Lemma clamp_inside (lo hi v : float) :
  SFleb lo v = true -> SFleb v hi = true -> SFeqb (clamp (lo, hi) v) v = true.
Proof.
  unfold clamp, py_max, py_min, SFleb, SFltb, SFeqb; cbn [fst snd].
  intros Hlo Hhi.
  destruct (SFcompare v hi) as [[]|] eqn:Hvhi; try discriminate.
  - (* v == hi: min keeps hi *)
    rewrite <- (SFcompare_Eq_r lo _ _ Hvhi).
    destruct (SFcompare lo v) as [[]|] eqn:Hlov; try discriminate.
    + now rewrite Hlov.
    + now rewrite (SFcompare_Eq_sym _ _ Hvhi).
  - (* v < hi: min yields v *)
    destruct (SFcompare lo v) as [[]|] eqn:Hlov; try discriminate.
    + now rewrite Hlov.
    + rewrite SFcompare_refl; auto. eapply SFcompare_not_nan_r; eauto.
Qed.

(** A value strictly within the bounds comes out as the same float. *)
Lemma clamp_strictly_inside (lo hi v : float) :
  SFltb lo v = true -> SFltb v hi = true -> clamp (lo, hi) v = v.
Proof.
  unfold clamp, py_max, py_min; cbn [fst snd].
  intros Hlo Hhi. now rewrite Hhi, Hlo.
Qed.

(** ** Running the methods symbolically *)

Ltac unfold_monad :=
  unfold run, try_except, bind, deref, getattr, str_attribute, get_self,
    modify_self, call, print, ret, raise, serialize, self_after, calls, printed,
    is_some, orb, hasattr_on, field_on, attr_value, hasattr.

Ltac red_monad :=
  cbn [value state self_of calls_of printed_of app fst snd
       host port user password wsdl_dir camera media_service ptz_service
       media_profile ptz_config_options pan_range tilt_range zoom_range
       set_camera set_media_service set_ptz_service set_media_profile
       set_ptz_config_options set_pan_range set_tilt_range set_zoom_range
       __init__].

(** Case analysis on the innermost undecided test of the goal: an answer
    of the environment, a field of the controller, an argument. *)
Ltac break_match :=
  match goal with
  | |- context [match ?x with _ => _ end] =>
      lazymatch x with
      | context [match _ with _ => _ end] => fail
      | _ =>
          first [ match goal with H : x = _ |- _ => rewrite H end
                | destruct x eqn:? ]
      end
  end.

Ltac exec := unfold_monad; red_monad; repeat (break_match; red_monad).

(** The f-strings of the [print]s play no part in a statement about the
    calls or the controller: they can be put aside before a method is
    run. *)
Ltac hide_prints :=
  repeat match goal with
    | |- context [print ?f] =>
        lazymatch f with
        | String _ _ => let x := fresh "fmt" in set (x := f); clearbody x
        end
    end.

(** Membership in an explicit log. *)
Ltac in_log H :=
  cbn [In] in H;
  repeat (destruct H as [H | H]; [subst | ]);
  try contradiction.

(** ** C3: [relative_move] passes its arguments through *)

(** C3. Every [RelativeMove] request issued by
    [relative_move(pan_delta, tilt_delta, zoom_delta, speed)] carries the
    profile token of the controller, a [Translation] made of exactly the
    given deltas and a [Speed] equal to the given speed on every axis:
    nothing is clamped or rescaled. *)
Theorem relative_move_passthrough
  (pan_delta tilt_delta zoom_delta speed : float)
  (env : Env) (h : list Event) (self : Controller)
  (e : Event) (r : RelativeMoveRequest) :
  In e (calls (run (relative_move pan_delta tilt_delta zoom_delta speed) env h self)) ->
  ev_RelativeMove e = Some r ->
  rm_Translation r = mkXyz pan_delta tilt_delta zoom_delta /\
  rm_Speed r = mkXyz speed speed speed /\
  option_map token (media_profile self) = Some (rm_ProfileToken r).
Proof.
  unfold relative_move. exec; intros Hin He; in_log Hin;
    cbn in He; try discriminate He.
  all: injection He as <-; cbn; auto.
Qed.

(** On a connected controller the request is indeed issued, once. *)
Lemma relative_move_passthrough_witness :
  let r := mkRelativeMove "profile_1" (mkXyz half neg_one zero) (speed_dict one) in
  let e := ev (RelativeMove 3%nat r) (Returned tt) in
  In e (calls (run (relative_move half neg_one zero one) demo_env [] Demo.connected)) /\
  ev_RelativeMove e = Some r /\
  rm_Translation r = mkXyz half neg_one zero /\
  rm_Speed r = mkXyz one one one /\
  option_map token (media_profile Demo.connected) = Some (rm_ProfileToken r).
Proof.
  intros r e.
  assert (Hin : In e (calls (run (relative_move half neg_one zero one)
                               demo_env [] Demo.connected)))
    by (vm_compute; right; left; reflexivity).
  assert (He : ev_RelativeMove e = Some r) by reflexivity.
  split; [exact Hin | split; [exact He | ]].
  exact (relative_move_passthrough half neg_one zero one demo_env []
           Demo.connected e r Hin He).
Defined.

Ltac destruct_records :=
  repeat match goal with
    | x : PTZStatus |- _ => destruct x
    | x : PTZVector |- _ => destruct x
    | x : Vector2D |- _ => destruct x
    | x : Vector1D |- _ => destruct x
    end.

Ltac destruct_attrs :=
  repeat match goal with
    | x : attr _ |- _ => destruct x
    end.

(** ** C1: [absolute_move] clamps the coordinates it is given *)

Lemma clamp_clamped_to (rng : float * float) (v : float) :
  clamped_to rng v (clamp rng v).
Proof.
  destruct rng as [lo hi]. split; [reflexivity | ].
  cbn [fst snd]. intros Hlo Hhi.
  pose proof (clamp_inside lo hi v Hlo Hhi) as Heq.
  split; [exact Heq | ].
  intros Hnz. unfold SFeqb in Heq.
  destruct (SFcompare (clamp (lo, hi) v) v) as [[]|] eqn:Hc; try discriminate Heq.
  destruct (SFcompare_Eq_inv _ _ Hc) as [-> | (s & s' & _ & Hv)]; [reflexivity | ].
  now destruct (Hnz s').
Qed.

(** C1. Whenever [absolute_move(pan, tilt, zoom, speed)] issues an
    [AbsoluteMove], the pan, tilt and zoom coordinates of the request are,
    for each argument that is not [None], [max(lo, min(hi, v))] over the
    controller's stored [pan_range], [tilt_range] and [zoom_range]; an
    argument already inside its range is sent unchanged. *)
Theorem absolute_move_clamps
  (pan tilt zoom : option float) (speed : float)
  (env : Env) (h : list Event) (self : Controller)
  (e : Event) (r : AbsoluteMoveRequest) :
  In e (calls (run (absolute_move pan tilt zoom speed) env h self)) ->
  ev_AbsoluteMove e = Some r ->
  sends_clamped self pan tilt zoom r.
Proof.
  unfold sends_clamped, absolute_move, assign_pan_tilt, assign_zoom. exec.
  all: intros Hin He; in_log Hin; cbn in He; try discriminate He.
  all: injection He as <-; cbn [am_Position].
  all: repeat split; intros v' Hv'; try discriminate Hv'; try (injection Hv' as <-).
  all: eexists; eexists;
    (split; [reflexivity | split; [cbn; reflexivity | apply clamp_clamped_to]]).
Qed.

(** Pan 2.0 is sent as 1.0, tilt 0.5 as 0.5 and zoom -1.0 as 0.0 with the
    default ranges. *)
Lemma absolute_move_clamps_witness :
  let r := mkAbsoluteMove "profile_1" (Some (Demo.position one half zero))
             (speed_dict one) in
  let e := ev (AbsoluteMove 3%nat r) (Returned tt) in
  In e (calls (run (absolute_move (Some two) (Some half) (Some neg_one) one)
                 demo_env [] Demo.connected)) /\
  ev_AbsoluteMove e = Some r /\
  sends_clamped Demo.connected (Some two) (Some half) (Some neg_one) r.
Proof.
  intros r e.
  assert (Hin : In e (calls (run (absolute_move (Some two) (Some half)
                                    (Some neg_one) one)
                               demo_env [] Demo.connected)))
    by (vm_compute; right; right; left; reflexivity).
  assert (He : ev_AbsoluteMove e = Some r) by reflexivity.
  split; [exact Hin | split; [exact He | ]].
  exact (absolute_move_clamps (Some two) (Some half) (Some neg_one) one
           demo_env [] Demo.connected e r Hin He).
Defined.

(** ** C9: axes left out of [absolute_move] keep the device's position *)

(** C9. Whenever [absolute_move] issues an [AbsoluteMove], the call just
    before it is a successful [GetStatus]; the request's [Position] is the
    position of that status with only the axes whose argument is not
    [None] overwritten.  With [pan] and [tilt] both [None] the [PanTilt]
    sent is the device's, and with [zoom] [None] the [Zoom] sent is the
    device's. *)
Theorem absolute_move_preserves_unspecified_axes
  (pan tilt zoom : option float) (speed : float)
  (env : Env) (h : list Event) (self : Controller)
  (e : Event) (r : AbsoluteMoveRequest) :
  In e (calls (run (absolute_move pan tilt zoom speed) env h self)) ->
  ev_AbsoluteMove e = Some r ->
  seeded_from_status (calls (run (absolute_move pan tilt zoom speed) env h self))
    self pan tilt zoom e r.
Proof.
  unfold seeded_from_status, absolute_move, assign_pan_tilt, assign_zoom. exec.
  all: intros Hin He; in_log Hin; cbn in He; try discriminate He.
  all: injection He as <-; cbn [am_Position].
  all: do 3 eexists; split; [reflexivity | split; [reflexivity | ]].
  all: destruct_records; cbn in *; subst; destruct_attrs; destruct_records.
  all: split; try reflexivity.
  all: intros seed sent Hs Hr; try discriminate Hs;
    injection Hs as <-; injection Hr as <-; cbn;
    split; intros; try discriminate; reflexivity.
Qed.

(** Only the pan is given: tilt and zoom go out as the camera reported
    them. *)
Lemma absolute_move_preserves_unspecified_axes_witness :
  let m := absolute_move (Some two) None None one in
  let r := mkAbsoluteMove "profile_1" (Some (Demo.position one half zero))
             (speed_dict one) in
  let e := ev (AbsoluteMove 3%nat r) (Returned tt) in
  In e (calls (run m demo_env [] Demo.connected)) /\
  ev_AbsoluteMove e = Some r /\
  seeded_from_status (calls (run m demo_env [] Demo.connected))
    Demo.connected (Some two) None None e r.
Proof.
  intros m r e.
  assert (Hin : In e (calls (run m demo_env [] Demo.connected)))
    by (vm_compute; right; right; left; reflexivity).
  assert (He : ev_AbsoluteMove e = Some r) by reflexivity.
  split; [exact Hin | split; [exact He | ]].
  exact (absolute_move_preserves_unspecified_axes (Some two) None None one
           demo_env [] Demo.connected e r Hin He).
Defined.

(** ** C2: discovery of the coordinate ranges by [connect] *)

Ltac rewrite_facts :=
  repeat (match goal with H : ?x = _ |- context [?x] => rewrite H end; cbn).

Ltac probe_case :=
  lazymatch goal with
  | |- discovers _ _ _ (?c1 :: ?c2 :: ?c3 :: ?c4 :: ?c5 :: _) _ =>
      exists [c1; c2; c3; c4; c5]; do 2 eexists;
      split; [reflexivity | split; [reflexivity | split]];
      [ repeat constructor
      | unfold range_probe, ranges_follow, has_default_ranges,
          defaults_where_unreported;
        cbn [app PTZConfiguration_ fst snd];
        rewrite_facts;
        repeat split; try reflexivity; try congruence; try tauto ]
  end.

(** C2, as the code has it.  A [connect] that returns [True] has, as the
    last thing it did, asked the device for its configuration options
    (unless the request could not be created or the profile has no PTZ
    configuration).  Afterwards [pan_range] and [tilt_range] are the
    [XRange] and [YRange] [Min]..[Max] of the first
    [AbsolutePanTiltPositionSpace] of the device's answer and [zoom_range]
    is the [XRange] of its first [AbsoluteZoomPositionSpace]; where the
    answer has no such space, or the call failed or was not reached, the
    range is what it was before [connect]: the default (-1.0, 1.0),
    (-1.0, 1.0) or (0.0, 1.0) on a controller that had the defaults, as a
    newly built one has. *)
Theorem connect_discovers_ranges
  (env : Env) (h : list Event) (self : Controller) :
  value (run connect env h self) = Returned true ->
  discovers env h self (calls (run connect env h self))
    (self_after (run connect env h self)).
Proof.
  unfold connect, _get_ptz_config_options. hide_prints. exec.
  all: intros Hv; try discriminate Hv.
  all: probe_case.
Qed.

(** On the wide camera both calls of the probe are made and all three
    ranges are the reported ones. *)
Lemma connect_discovers_ranges_witness :
  let r := run connect wide_camera [] fresh_controller in
  value r = Returned true /\
  discovers wide_camera [] fresh_controller (calls r) (self_after r) /\
  (exists established,
     calls r = established
               ++ [ev (create_type 3%nat "GetConfigurationOptions") (Returned tt);
                   ev (GetConfigurationOptions 3%nat "PTZToken")
                      (respond wide_camera PTZConfigurationOptions []
                         (GetConfigurationOptions 3%nat "PTZToken"))]) /\
  pan_range (self_after r) = (neg_two, two) /\
  tilt_range (self_after r) = (neg_one, one) /\
  zoom_range (self_after r) = (zero, three).
Proof.
  intros r.
  assert (Hv : value r = Returned true) by (vm_compute; reflexivity).
  split; [exact Hv | split].
  - exact (connect_discovers_ranges wide_camera [] fresh_controller Hv).
  - split; [ | vm_compute; repeat split].
    eexists [_; _; _; _; _]. vm_compute. reflexivity.
Defined.

(** The defaults do not come back on a controller that has connected
    before: the second [connect] succeeds, the device reports no space (or
    its [GetConfigurationOptions] fails), and the ranges are those found
    by the first [connect], not (-1.0, 1.0) and (0.0, 1.0). *)
Lemma connect_keeps_ranges_of_an_earlier_connect :
  let first := run connect wide_camera [] fresh_controller in
  let silent := run connect demo_env (calls first) (self_after first) in
  let failing :=
    run connect camera_without_options (calls first) (self_after first) in
  (value silent = Returned true /\
   reported_options (calls silent) = Some (Demo.options [] []) /\
   pan_range (self_after silent) = (neg_two, two) /\
   zoom_range (self_after silent) = (zero, three) /\
   ~ discovered (self_after silent) (calls silent)) /\
  (value failing = Returned true /\
   reported_options (calls failing) = None /\
   pan_range (self_after failing) = (neg_two, two) /\
   zoom_range (self_after failing) = (zero, three) /\
   ~ discovered (self_after failing) (calls failing)).
Proof.
  split.
  all: split; [vm_compute; reflexivity | ].
  all: split; [vm_compute; reflexivity | ].
  all: split; [vm_compute; reflexivity | ].
  all: split; [vm_compute; reflexivity | ].
  all: intros Hd; vm_compute in Hd; destruct Hd as [[Hpan _] _];
    discriminate Hpan.
Qed.

(** ** C5: the order of the calls made by [continuous_move] *)

Ltac velocity_case :=
  let ev1 := fresh "ev" in let req1 := fresh "req" in
  let Hin := fresh "Hin" in let He := fresh "He" in
  intros ev1 req1 Hin He; in_log Hin; cbn in He; try discriminate He;
  injection He as <-; reflexivity.

Ltac order_case :=
  let ev1 := fresh "ev" in
  let Hin := fresh "Hin" in let Hn := fresh "Hn" in let Hr := fresh "Hr" in
  let Hw := fresh "Hw" in
  intros ev1 Hin [Hn Hr] Hw; in_log Hin; cbn in Hn, Hr;
  try discriminate Hn; try discriminate Hr;
  try (exfalso;
       solve [ discriminate
                 (Hw _ (or_intror (or_intror (or_introl eq_refl))) eq_refl) ]);
  do 4 eexists; repeat split; reflexivity.

Ltac stop_after_move_case :=
  let ix := fresh "ix" in let sv := fresh "sv" in
  let Hi := fresh "Hi" in let Hn := fresh "Hn" in
  intros ix sv Hi Hn;
  repeat (destruct ix as [|ix]; cbn in Hi; try discriminate Hi;
          [injection Hi as <-; cbn in Hn; try discriminate Hn | ]);
  try (destruct ix; discriminate Hi);
  exists 1%nat; eexists; repeat split; solve [lia | reflexivity].

Ltac no_stop_case :=
  let ev1 := fresh "ev" in let exn1 := fresh "exn" in
  let Hin := fresh "Hin" in let Hn := fresh "Hn" in let Hr := fresh "Hr" in
  intros ev1 exn1 Hin Hn Hr; in_log Hin; cbn in Hn, Hr;
  try discriminate Hn; try discriminate Hr; reflexivity.

(** C5, as the code has it.  In a run of [continuous_move] where
    [ContinuousMove] returns and the wait completes, the calls are
    [ContinuousMove] with the given velocity, the wait of the given
    duration, then [Stop] with [PanTilt=True] and [Zoom=True]; [Stop] never
    precedes [ContinuousMove]; and when [ContinuousMove] raises, no [Stop]
    is issued. *)
Theorem continuous_move_order
  (pan_speed tilt_speed zoom_speed duration : float)
  (env : Env) (h : list Event) (self : Controller) :
  continuous_move_in_order
    (calls (run (continuous_move pan_speed tilt_speed zoom_speed duration)
              env h self))
    self (mkXyz pan_speed tilt_speed zoom_speed) duration.
Proof.
  unfold continuous_move_in_order, succeeded, continuous_move, stop. exec.
  all: lazymatch goal with
       | |- _ =>
           split; [velocity_case
                  | split; [order_case
                           | split; [stop_after_move_case | no_stop_case]]]
       end.
Qed.

(** Half a turn per second to the right for one second. *)
Lemma continuous_move_order_witness :
  let cs := calls (run (continuous_move half zero zero one)
                     demo_env [] Demo.connected) in
  cs = [ev (create_type 3%nat "ContinuousMove") (Returned tt);
        ev (ContinuousMove 3%nat
              (mkContinuousMove "profile_1" (mkXyz half zero zero)))
           (Returned tt);
        ev (sleep one) (Returned tt);
        ev (Stop 3%nat (mkStop "profile_1" true true)) (Returned tt)] /\
  continuous_move_in_order cs Demo.connected (mkXyz half zero zero) one.
Proof.
  split.
  - vm_compute. reflexivity.
  - exact (continuous_move_order half zero zero one demo_env [] Demo.connected).
Defined.

(** With a negative duration [time.sleep] raises [ValueError]: the
    [ContinuousMove] has succeeded, the handler of [continuous_move]
    catches the error, and no [Stop] is sent. *)
Lemma continuous_move_negative_duration_skips_stop :
  let cs := calls (run (continuous_move half zero zero neg_one)
                     demo_env [] Demo.connected) in
  cs = [ev (create_type 3%nat "ContinuousMove") (Returned tt);
        ev (ContinuousMove 3%nat
              (mkContinuousMove "profile_1" (mkXyz half zero zero)))
           (Returned tt);
        ev (sleep neg_one)
           (Raised (mkExn "ValueError" "sleep length must be non-negative"))] /\
  (exists e, In e cs /\ succeeded "ContinuousMove" e) /\
  count_calls "Stop" cs = 0%nat.
Proof.
  split; [vm_compute; reflexivity | split; [ | vm_compute; reflexivity]].
  eexists. split; [vm_compute; right; left; reflexivity | ].
  split; reflexivity.
Qed.

(** ** C4: what [get_status] returns *)

(** When [GetStatus] succeeds and the lines about the position can be
    printed, [get_status] returns the serialized response. *)
Lemma get_status_returns_serialized
  (env : Env) (h : list Event) (self : Controller)
  (g : Event) (status : PTZStatus) :
  In g (calls (run get_status env h self)) ->
  ev_GetStatus g = Some (Returned status) ->
  printable status ->
  value (run get_status env h self)
    = Returned (serialize_object env (ZStatus status)).
Proof.
  unfold get_status. exec.
  all: intros Hin Hg Hp; in_log Hin; cbn in Hg; try discriminate Hg;
    injection Hg as Hg; subst status; try reflexivity.
  all: unfold printable in Hp; rewrite_facts;
    repeat match goal with
      | H : ?x = _, Hp : context [?x] |- _ => rewrite H in Hp
      end;
    destruct Hp as [Hpt Hz]; congruence.
Qed.

(** C4, at the failing input.  [GetStatus] succeeds on a camera without
    zoom, the response serializes to a non-empty dictionary, and yet
    [get_status] returns [{}]: [hasattr(pos, 'Zoom')] holds for a [Zoom]
    that is [None], the f-string [pos.Zoom.x] raises, and the handler
    discards the dictionary already built. *)
Theorem get_status_drops_status_without_zoom :
  let r := run get_status camera_without_zoom [] Demo.connected in
  let status := Demo.status_at (Has (Demo.position_no_zoom half half)) in
  calls r = [ev (GetStatus 3%nat "profile_1") (Returned status)] /\
  value r = Returned (PyDict []) /\
  serialize_object camera_without_zoom (ZStatus status) <> PyDict [].
Proof.
  split; [vm_compute; reflexivity | split; [vm_compute; reflexivity | ]].
  vm_compute. discriminate.
Qed.

(** ** C6: the PTZ operations keep no state *)

Lemma ptz_operations_keep_controller :
  (forall pan tilt zoom speed,
     keeps_controller (absolute_move pan tilt zoom speed)) /\
  (forall pan_delta tilt_delta zoom_delta speed,
     keeps_controller (relative_move pan_delta tilt_delta zoom_delta speed)) /\
  (forall pan_speed tilt_speed zoom_speed duration,
     keeps_controller (continuous_move pan_speed tilt_speed zoom_speed duration)) /\
  keeps_controller stop /\
  keeps_controller get_status /\
  keeps_controller get_current_position.
Proof.
  unfold keeps_controller, absolute_move, assign_pan_tilt, assign_zoom,
    relative_move, continuous_move, stop, get_status, get_current_position.
  repeat split; intros.
  all: exec; reflexivity.
Qed.

Lemma status_queries_ask_afresh :
  asks_device_afresh get_status /\ asks_device_afresh get_current_position.
Proof.
  unfold asks_device_afresh, get_status, get_current_position.
  split; intros env h self ptz p Hs Hp.
  all: unfold run, try_except, bind at 1 2, get_self, deref; cbn.
  all: rewrite Hs, Hp.
  all: exec; rewrite ?app_nil_r in *; congruence.
Qed.

Lemma status_queries_answer_decides :
  answer_decides get_status /\ answer_decides get_current_position.
Proof.
  unfold answer_decides, get_status, get_current_position.
  split; intros env h self env' h' self' Hser.
  all: exec.
  all: try rewrite Hser.
  all: intros Hm; cbn in Hm; try discriminate Hm; try reflexivity.
  all: injection Hm as Hm; subst; congruence.
Qed.

(** Without a PTZ service or a media profile the query cannot be put:
    no call is made and the fixed fallback is returned. *)
Lemma status_queries_unconnected
  (env : Env) (h : list Event) (self : Controller) :
  ptz_service self = None \/ media_profile self = None ->
  (calls (run get_status env h self) = [] /\
   value (run get_status env h self) = Returned (PyDict [])) /\
  (calls (run get_current_position env h self) = [] /\
   value (run get_current_position env h self)
     = Returned (zero, zero, zero)).
Proof.
  unfold get_status, get_current_position.
  intros [Hn | Hn]; unfold run, try_except, bind, get_self, deref; cbn;
    rewrite Hn; destruct (ptz_service self); cbn; repeat split.
Qed.

(** C6. [absolute_move], [relative_move], [continuous_move], [stop],
    [get_status] and [get_current_position] leave every stored field of
    the controller unchanged, whatever its state; [get_status] and
    [get_current_position] put a new [GetStatus] to the device at each
    invocation, and their result is decided by the answer to it, not by
    anything kept from before. *)
Theorem ptz_operations_keep_no_state :
  ((forall pan tilt zoom speed,
      keeps_controller (absolute_move pan tilt zoom speed)) /\
   (forall pan_delta tilt_delta zoom_delta speed,
      keeps_controller (relative_move pan_delta tilt_delta zoom_delta speed)) /\
   (forall pan_speed tilt_speed zoom_speed duration,
      keeps_controller
        (continuous_move pan_speed tilt_speed zoom_speed duration)) /\
   keeps_controller stop /\
   keeps_controller get_status /\
   keeps_controller get_current_position) /\
  (asks_device_afresh get_status /\
   asks_device_afresh get_current_position) /\
  (answer_decides get_status /\ answer_decides get_current_position).
Proof.
  split; [exact ptz_operations_keep_controller | ].
  split; [exact status_queries_ask_afresh | exact status_queries_answer_decides].
Qed.

Lemma ptz_operations_keep_no_state_witness :
  ptz_service Demo.connected = Some 3%nat /\
  media_profile Demo.connected = Some Demo.profile /\
  calls (run get_current_position moving_camera [] Demo.connected) =
    [ev (GetStatus 3%nat "profile_1")
        (respond moving_camera PTZStatus [] (GetStatus 3%nat "profile_1"))] /\
  self_after (run get_current_position moving_camera [] Demo.connected)
    = Demo.connected.
Proof.
  split; [reflexivity | split; [reflexivity | split]].
  - exact (proj2 (proj1 (proj2 ptz_operations_keep_no_state))
             moving_camera [] Demo.connected 3%nat Demo.profile
             eq_refl eq_refl).
  - exact (proj2 (proj2 (proj2 (proj2 (proj2
             (proj1 ptz_operations_keep_no_state)))))
             moving_camera [] Demo.connected).
Defined.

Example position_is_read_again_after_a_move :
  value (run (before <- get_current_position ;;
              absolute_move (Some half) None None one ;;
              after <- get_current_position ;;
              ret (before, after))
           moving_camera [] Demo.connected)
  = Returned ((zero, zero, zero), (half, zero, zero)).
Proof. vm_compute. reflexivity. Qed.

(** ** C7: no wrapper calls its library operation twice *)

Ltac unfold_wrappers :=
  unfold returning, move_to_position, absolute_move, assign_pan_tilt,
    assign_zoom, relative_move, continuous_move, stop, goto_preset,
    set_preset, remove_preset, goto_home, set_home.

Ltac retry_case :=
  let ev1 := fresh "ev" in let exn1 := fresh "exn" in
  let Hin := fresh "Hin" in let Hn := fresh "Hn" in let Hr := fresh "Hr" in
  split;
  [ vm_compute; lia
  | intros ev1 exn1 Hin Hn Hr; in_log Hin; cbn in Hn, Hr;
    try discriminate Hn; try discriminate Hr;
    injection Hr as <-; eexists; repeat split; reflexivity ].

(** C7. A run of [absolute_move], [relative_move], [continuous_move],
    [stop], [goto_preset], [set_preset], [remove_preset], [goto_home] or
    [set_home] calls its library operation at most once; if that call
    raises, the wrapper prints its failure line with the error and
    returns its failure value, and the operation is not called again. *)
Theorem wrappers_do_not_retry
  (op : Operation) (name : string)
  (env : Env) (h : list Event) (self : Controller) :
  underlying op = Some name ->
  (count_calls name (calls (run (invoke op) env h self)) <= 1)%nat /\
  (forall e x,
     In e (calls (run (invoke op) env h self)) ->
     ev_name e = name -> ev_raised e = Some x ->
     exists v,
       fallback op = Some v /\
       value (run (invoke op) env h self) = Returned v /\
       printed (run (invoke op) env h self)
         = [mkLine (failure_line op) [PyStr (exn_msg x)]]).
Proof.
  intros Hu. destruct op; cbn in Hu; try discriminate Hu; injection Hu as <-;
    cbn [invoke fallback failure_line]; unfold_wrappers.
  all: exec; lazymatch goal with |- _ => retry_case end.
Qed.

Lemma wrappers_do_not_retry_witness :
  let r := run (invoke (op_goto_preset "1" one))
             camera_refusing_presets [] Demo.connected in
  underlying (op_goto_preset "1" one) = Some "GotoPreset" /\
  calls r =
    [ev (create_type 3%nat "GotoPreset") (Returned tt);
     ev (GotoPreset 3%nat (mkGotoPreset "profile_1" "1" (speed_dict one)))
        (Raised Demo.fault)] /\
  (count_calls "GotoPreset" (calls r) <= 1)%nat.
Proof.
  split; [reflexivity | split; [vm_compute; reflexivity | ]].
  exact (proj1 (wrappers_do_not_retry (op_goto_preset "1" one) "GotoPreset"
                  camera_refusing_presets [] Demo.connected eq_refl)).
Defined.

(** ** C8: exceptions never leave a public operation *)

Lemma quiet_bind {A B : Type} (m : M A) (k : A -> M B) :
  quiet m -> (forall a, quiet (k a)) -> quiet (bind m k).
Proof.
  intros Hm Hk env h st. unfold bind.
  specialize (Hm env h st).
  destruct (m env h st) as [[a | x] st1]; cbn [state] in *.
  - destruct Hm as [Hs0 Hc0], (Hk a env h st1) as [Hs Hc]. split; congruence.
  - exact Hm.
Qed.

Lemma quiet_ret {A : Type} (a : A) : quiet (ret a).
Proof. intros env h st. split; reflexivity. Qed.

Lemma quiet_print (f : string) (a : list pyval) : quiet (print f a).
Proof. intros env h st. split; reflexivity. Qed.

Lemma quiet_deref {A : Type} (o : option A) (name : string) :
  quiet (deref o name).
Proof. intros env h st. destruct o; split; reflexivity. Qed.

(** The loop of [get_presets] only prints. *)
Lemma get_presets_loop_quiet (presets : list PTZPreset) :
  forall d, quiet (get_presets_loop presets d).
Proof.
  induction presets as [|preset rest IH]; intros d; cbn [get_presets_loop].
  - apply quiet_ret.
  - apply quiet_bind; [ | intros _; apply IH].
    destruct (hasattr (PTZPosition preset)); [ | apply quiet_print].
    repeat (apply quiet_bind; [ | intros ? ]);
      try apply quiet_print;
      destruct (hasattr_on _ _);
      try apply quiet_ret;
      (apply quiet_bind; [apply quiet_deref | intros ?; apply quiet_ret]).
Qed.

Ltac break_loop :=
  match goal with
  | |- context [get_presets_loop ?ps ?d ?env ?h ?st] =>
      let Hs := fresh "Hs" in
      let Hc := fresh "Hc" in
      destruct (get_presets_loop_quiet ps d env h st) as [Hs Hc];
      destruct (get_presets_loop ps d env h st) as [[? | ?] [? ? ?]];
      cbn [state self_of calls_of] in Hs, Hc; subst
  end.

Ltac exec_loops :=
  unfold_monad; red_monad; repeat (first [break_loop | break_match]; red_monad).

Ltac unfold_methods :=
  unfold returning, connect, _get_ptz_config_options, get_rtsp_url,
    get_onvif_stream_url, move_to_position, absolute_move, assign_pan_tilt,
    assign_zoom, relative_move, continuous_move, stop, get_status,
    get_current_position, get_presets, goto_preset, set_preset,
    remove_preset, goto_home, set_home, get_device_info, get_capabilities,
    get_ptz_nodes.

Ltac contain_case :=
  let ev1 := fresh "ev" in let exn1 := fresh "exn" in let f1 := fresh "f" in
  let Hin := fresh "Hin" in let Hs := fresh "Hs" in let Hr := fresh "Hr" in
  let Hf := fresh "Hf" in
  split;
  [ eexists; reflexivity
  | intros ev1 exn1 f1 Hin Hr Hs Hf; in_log Hin; cbn in Hs, Hr, Hf;
    try discriminate Hr; try discriminate Hs; try discriminate Hf;
    injection Hf as <-; reflexivity ].

(** C8, as the code has it.  No public operation lets an exception
    through: each returns a value, whatever the library does.  When a
    library call made by an operation raises, the operation returns its
    fallback -- [False] for [connect], [absolute_move],
    [move_to_position] and [relative_move], the empty string for
    [get_onvif_stream_url] and [set_preset], [{}] for [get_status],
    [get_presets], [get_device_info] and [get_capabilities],
    [(0.0, 0.0, 0.0)] for [get_current_position], [[]] for
    [get_ptz_nodes], [None] for the others -- except that [connect] gets
    over a failure of the calls made by [_get_ptz_config_options]. *)
Theorem operations_contain_exceptions
  (op : Operation) (env : Env) (h : list Event) (self : Controller) :
  (exists v, value (run (invoke op) env h self) = Returned v) /\
  (forall e x f,
     In e (calls (run (invoke op) env h self)) ->
     ev_raised e = Some x ->
     swallowed op e = false ->
     fallback op = Some f ->
     value (run (invoke op) env h self) = Returned f).
Proof.
  destruct op; cbn [invoke fallback swallowed]; unfold_methods.
  all: exec_loops; lazymatch goal with |- _ => contain_case end.
Qed.

Lemma operations_contain_exceptions_witness :
  let r := run (invoke op_connect) camera_without_profiles [] fresh_controller in
  let e := ev (GetProfiles 2%nat) (Raised Demo.fault) in
  In e (calls r) /\
  ev_raised e = Some Demo.fault /\
  swallowed op_connect e = false /\
  fallback op_connect = Some (PyBool false) /\
  value r = Returned (PyBool false).
Proof.
  intros r e.
  assert (Hin : In e (calls r))
    by (vm_compute; right; right; right; left; reflexivity).
  split; [exact Hin | ].
  split; [reflexivity | split; [reflexivity | split; [reflexivity | ]]].
  exact (proj2 (operations_contain_exceptions op_connect
                  camera_without_profiles [] fresh_controller)
           e Demo.fault (PyBool false) Hin eq_refl eq_refl eq_refl).
Defined.

(** A library call raises during [connect], and [connect] returns
    [True]: the handler of [_get_ptz_config_options] has dealt with it. *)
Lemma connect_returns_true_after_failed_options_call :
  let r := run (invoke op_connect) camera_without_options [] fresh_controller in
  let e := ev (GetConfigurationOptions 3%nat "PTZToken") (Raised Demo.fault) in
  In e (calls r) /\
  ev_raised e = Some Demo.fault /\
  fallback op_connect = Some (PyBool false) /\
  value r = Returned (PyBool true).
Proof.
  split; [vm_compute; do 6 right; left; reflexivity | ].
  split; [reflexivity | split; [reflexivity | vm_compute; reflexivity]].
Qed.

(** ** C10: the fallback of [get_current_position] *)

(** C10. [get_current_position] returns (0.0, 0.0, 0.0) when [GetStatus]
    raises and when the status has no [Position]; a [PanTilt] or [Zoom]
    that the position lacks comes out as 0.0; and a camera at the origin
    is reported as (0.0, 0.0, 0.0) as well, so the value does not tell a
    failed query from a camera at the origin. *)
Theorem get_current_position_fallback_is_ambiguous
  (env : Env) (h : list Event) (self : Controller)
  (g : Event) (o : outcome PTZStatus) :
  In g (calls (run get_current_position env h self)) ->
  ev_GetStatus g = Some o ->
  position_or_zeros o (value (run get_current_position env h self)).
Proof.
  unfold get_current_position. exec.
  all: intros Hin Hg; in_log Hin; cbn in Hg; injection Hg as Hg; subst o.
  all: unfold position_or_zeros, lacking; rewrite_facts; try reflexivity.
  all: do 3 eexists; split; [reflexivity | ].
  all: cbn; repeat split; try discriminate; try (intros; congruence).
Qed.

Lemma get_current_position_fallback_is_ambiguous_witness :
  let r := run get_current_position camera_not_answering [] Demo.connected in
  let g := ev (GetStatus 3%nat "profile_1") (Raised Demo.fault) in
  In g (calls r) /\
  ev_GetStatus g = Some (Raised Demo.fault) /\
  position_or_zeros (Raised Demo.fault) (value r).
Proof.
  intros r g.
  assert (Hin : In g (calls r)) by (vm_compute; left; reflexivity).
  split; [exact Hin | split; [reflexivity | ]].
  exact (get_current_position_fallback_is_ambiguous camera_not_answering []
           Demo.connected g (Raised Demo.fault) Hin eq_refl).
Defined.

Example failed_query_looks_like_origin :
  value (run get_current_position camera_not_answering [] Demo.connected)
  = value (run get_current_position camera_at_origin [] Demo.connected).
Proof. vm_compute. reflexivity. Qed.

(** * Further properties of the controller *)

(** ** Tools *)

Ltac exec' := hide_prints; exec_loops.

Ltac break_loop_eqn :=
  match goal with
  | |- context [get_presets_loop ?ps ?d ?env ?h ?st] =>
      let Hs := fresh "Hs" in
      let Hc := fresh "Hc" in
      let Hloop := fresh "Hloop" in
      destruct (get_presets_loop_quiet ps d env h st) as [Hs Hc];
      destruct (get_presets_loop ps d env h st) as [[? | ?] [? ? ?]] eqn:Hloop;
      cbn [state self_of calls_of] in Hs, Hc; subst
  end.

(** ** More about the clamp of [absolute_move] *)

Lemma SFleb_refl (a : float) : a <> S754_nan -> SFleb a a = true.
Proof. intros H. unfold SFleb. now rewrite SFcompare_refl. Qed.

Lemma SFltb_leb (a b : float) : SFltb a b = true -> SFleb a b = true.
Proof. unfold SFltb, SFleb. now destruct (SFcompare a b) as [[]|]. Qed.

Lemma SFleb_not_nan (a b : float) :
  SFleb a b = true -> a <> S754_nan /\ b <> S754_nan.
Proof.
  unfold SFleb. destruct (SFcompare a b) as [c|] eqn:H; [ | discriminate].
  intros _. split; [eapply SFcompare_not_nan_l | eapply SFcompare_not_nan_r]; eauto.
Qed.

Lemma SFltb_irrefl (a : float) : SFltb a a = false.
Proof.
  unfold SFltb. destruct a as [s | s | | s m e] eqn:Ha;
    try (rewrite SFcompare_refl; [reflexivity | discriminate]).
  reflexivity.
Qed.

Lemma SFltb_trans (a b c : float) :
  SFltb a b = true -> SFltb b c = true -> SFltb a c = true.
Proof.
  unfold SFltb, SFcompare.
  destruct a as [sa | sa | | sa ma ea], b as [sb | sb | | sb mb eb],
    c as [sc | sc | | sc mc ec];
    try discriminate; try (destruct sa; discriminate);
    try (destruct sb; discriminate); try (destruct sc; discriminate);
    try (destruct sa, sb; discriminate); try (destruct sb, sc; discriminate);
    try (destruct sa, sc; discriminate);
    try (destruct sa, sb, sc; (discriminate || reflexivity)).
  all: destruct sa, sb, sc; try discriminate; try reflexivity;
    change (Pos.compare_cont Eq) with Pos.compare;
    destruct (Z.compare_spec ea eb); try discriminate;
    destruct (Z.compare_spec eb ec); try discriminate;
    destruct (Z.compare_spec ea ec); try lia; try reflexivity; subst;
    destruct (Pos.compare_spec ma mb); try discriminate;
    destruct (Pos.compare_spec mb mc); try discriminate;
    destruct (Pos.compare_spec ma mc); try lia; try reflexivity.
Qed.

Lemma clamp_within (rng : float * float) (v : float) :
  SFleb (fst rng) (snd rng) = true -> within rng (clamp rng v).
Proof.
  destruct rng as [lo hi]. unfold within, clamp, py_max, py_min. cbn [fst snd].
  intros Hr. destruct (SFleb_not_nan _ _ Hr) as [Hlo Hhi].
  destruct (SFltb v hi) eqn:Hvh.
  - destruct (SFltb lo v) eqn:Hlv.
    + split; now apply SFltb_leb.
    + split; [now apply SFleb_refl | exact Hr].
  - destruct (SFltb lo hi) eqn:Hlh.
    + split; [exact Hr | now apply SFleb_refl].
    + split; [now apply SFleb_refl | exact Hr].
Qed.

Lemma clamp_idempotent (rng : float * float) (v : float) :
  clamp rng (clamp rng v) = clamp rng v.
Proof.
  destruct rng as [lo hi]. unfold clamp, py_max, py_min. cbn [fst snd].
  destruct (SFltb v hi) eqn:Hvh; destruct (SFltb lo v) eqn:Hlv;
    rewrite ?Hvh, ?Hlv; try reflexivity;
    destruct (SFltb lo hi) eqn:Hlh; rewrite ?Hlh;
    try destruct (SFltb lo lo); try destruct (SFltb hi hi);
    rewrite ?Hlh; reflexivity.
Qed.

Lemma clamp_inverted (rng : float * float) (v : float) :
  SFltb (snd rng) (fst rng) = true -> clamp rng v = fst rng.
Proof.
  destruct rng as [lo hi]. unfold clamp, py_max, py_min. cbn [fst snd].
  intros Hinv.
  destruct (SFltb v hi) eqn:Hvh.
  - destruct (SFltb lo v) eqn:Hlv; [ | reflexivity].
    pose proof (SFltb_trans _ _ _ (SFltb_trans _ _ _ Hlv Hvh) Hinv) as Hll.
    rewrite SFltb_irrefl in Hll. discriminate Hll.
  - destruct (SFltb lo hi) eqn:Hlh; [ | reflexivity].
    pose proof (SFltb_trans _ _ _ Hlh Hinv) as Hll.
    rewrite SFltb_irrefl in Hll. discriminate Hll.
Qed.

(** Whatever holds of every clamped value holds of every coordinate that
    [absolute_move] sends for a given argument. *)
Lemma absolute_move_sends
  (Q : float * float -> float -> float -> Prop)
  (pan tilt zoom : option float) (speed : float)
  (env : Env) (h : list Event) (self : Controller)
  (e : Event) (r : AbsoluteMoveRequest) :
  (forall rng v, Q rng v (clamp rng v)) ->
  In e (calls (run (absolute_move pan tilt zoom speed) env h self)) ->
  ev_AbsoluteMove e = Some r ->
  sends_such_that Q self pan tilt zoom r.
Proof.
  intros HQ.
  unfold sends_such_that, absolute_move, assign_pan_tilt, assign_zoom.
  hide_prints. exec.
  all: intros Hin He; in_log Hin; cbn in He; try discriminate He.
  all: injection He as <-; cbn [am_Position].
  all: repeat split; intros v' Hv'; try discriminate Hv'; try (injection Hv' as <-).
  all: eexists; eexists;
    (split; [reflexivity | split; [cbn; reflexivity | apply HQ]]).
Qed.

(** X1. When the stored range of an axis is well formed ([lo <= hi]),
    the coordinate [absolute_move] sends on that axis lies within it for
    every argument: out-of-range values, infinities and NaN included. *)
Theorem absolute_move_stays_within_range
  (pan tilt zoom : option float) (speed : float)
  (env : Env) (h : list Event) (self : Controller)
  (e : Event) (r : AbsoluteMoveRequest) :
  In e (calls (run (absolute_move pan tilt zoom speed) env h self)) ->
  ev_AbsoluteMove e = Some r ->
  sends_such_that
    (fun rng _ x => SFleb (fst rng) (snd rng) = true -> within rng x)
    self pan tilt zoom r.
Proof.
  apply absolute_move_sends. intros rng v. apply clamp_within.
Qed.

(** A NaN pan goes out as the upper bound 1.0. *)
Lemma absolute_move_stays_within_range_witness :
  let m := absolute_move (Some nan) None None one in
  let r := mkAbsoluteMove "profile_1" (Some (Demo.position one half zero))
             (speed_dict one) in
  let e := ev (AbsoluteMove 3%nat r) (Returned tt) in
  In e (calls (run m demo_env [] Demo.connected)) /\
  ev_AbsoluteMove e = Some r /\
  sends_such_that
    (fun rng _ x => SFleb (fst rng) (snd rng) = true -> within rng x)
    Demo.connected (Some nan) None None r.
Proof.
  intros m r e.
  assert (Hin : In e (calls (run m demo_env [] Demo.connected)))
    by (vm_compute; right; right; left; reflexivity).
  split; [exact Hin | split; [reflexivity | ]].
  exact (absolute_move_stays_within_range (Some nan) None None one
           demo_env [] Demo.connected e r Hin eq_refl).
Defined.

(** X2. A coordinate sent by [absolute_move] is a fixed point of the
    clamp: asking for the sent value again sends the same value. *)
Theorem absolute_move_sends_fixed_points
  (pan tilt zoom : option float) (speed : float)
  (env : Env) (h : list Event) (self : Controller)
  (e : Event) (r : AbsoluteMoveRequest) :
  In e (calls (run (absolute_move pan tilt zoom speed) env h self)) ->
  ev_AbsoluteMove e = Some r ->
  sends_such_that (fun rng _ x => clamp rng x = x) self pan tilt zoom r.
Proof.
  apply absolute_move_sends. intros rng v. apply clamp_idempotent.
Qed.

Lemma absolute_move_sends_fixed_points_witness :
  let m := absolute_move (Some two) (Some neg_two) (Some half) one in
  let r := mkAbsoluteMove "profile_1" (Some (Demo.position one neg_one half))
             (speed_dict one) in
  let e := ev (AbsoluteMove 3%nat r) (Returned tt) in
  In e (calls (run m demo_env [] Demo.connected)) /\
  ev_AbsoluteMove e = Some r /\
  sends_such_that (fun rng _ x => clamp rng x = x)
    Demo.connected (Some two) (Some neg_two) (Some half) r.
Proof.
  intros m r e.
  assert (Hin : In e (calls (run m demo_env [] Demo.connected)))
    by (vm_compute; right; right; left; reflexivity).
  split; [exact Hin | split; [reflexivity | ]].
  exact (absolute_move_sends_fixed_points (Some two) (Some neg_two) (Some half)
           one demo_env [] Demo.connected e r Hin eq_refl).
Defined.

(** X3. When the stored range of an axis is upside down ([hi < lo]),
    [absolute_move] sends the stored lower bound on that axis whatever
    the argument. *)
Theorem absolute_move_with_inverted_range
  (pan tilt zoom : option float) (speed : float)
  (env : Env) (h : list Event) (self : Controller)
  (e : Event) (r : AbsoluteMoveRequest) :
  In e (calls (run (absolute_move pan tilt zoom speed) env h self)) ->
  ev_AbsoluteMove e = Some r ->
  sends_such_that
    (fun rng _ x => SFltb (snd rng) (fst rng) = true -> x = fst rng)
    self pan tilt zoom r.
Proof.
  apply absolute_move_sends. intros rng v. apply clamp_inverted.
Qed.

Lemma absolute_move_with_inverted_range_witness :
  let m := absolute_move (Some zero) None None one in
  let r := mkAbsoluteMove "profile_1" (Some (Demo.position one half zero))
             (speed_dict one) in
  let e := ev (AbsoluteMove 3%nat r) (Returned tt) in
  In e (calls (run m demo_env [] controller_with_inverted_range)) /\
  ev_AbsoluteMove e = Some r /\
  sends_such_that
    (fun rng _ x => SFltb (snd rng) (fst rng) = true -> x = fst rng)
    controller_with_inverted_range (Some zero) None None r.
Proof.
  intros m r e.
  assert (Hin : In e (calls (run m demo_env [] controller_with_inverted_range)))
    by (vm_compute; right; right; left; reflexivity).
  split; [exact Hin | split; [reflexivity | ]].
  exact (absolute_move_with_inverted_range (Some zero) None None one
           demo_env [] controller_with_inverted_range e r Hin eq_refl).
Defined.

(** ** Moves *)

(** X4. If an axis is asked for that the position reported by
    [GetStatus] does not have -- the position is [None], or its
    [PanTilt] or [Zoom] is missing or [None] -- [absolute_move] sends no
    [AbsoluteMove] and returns [False]. *)
Theorem absolute_move_fails_on_missing_component
  (pan tilt zoom : option float) (speed : float)
  (env : Env) (h : list Event) (self : Controller)
  (g : Event) (status : PTZStatus) :
  In g (calls (run (absolute_move pan tilt zoom speed) env h self)) ->
  ev_GetStatus g = Some (Returned status) ->
  asks_for_missing_component pan tilt zoom status ->
  value (run (absolute_move pan tilt zoom speed) env h self) = Returned false /\
  count_calls "AbsoluteMove"
    (calls (run (absolute_move pan tilt zoom speed) env h self)) = 0%nat.
Proof.
  unfold absolute_move, assign_pan_tilt, assign_zoom. hide_prints. exec.
  all: intros Hin Hg Hm; in_log Hin; cbn in Hg; try discriminate Hg;
    injection Hg as Hg; subst status.
  all: try (split; reflexivity).
  all: exfalso; unfold asks_for_missing_component, field_on, attr_value in Hm;
    cbn in *;
    repeat match goal with
      | H : ?x = _ |- _ => rewrite H in Hm; cbn in Hm
      end;
    destruct Hm as [[[Hp | Hp] Hn] | [Hz Hn]]; congruence.
Qed.

(** A zoom is asked of a camera that has none. *)
Lemma absolute_move_fails_on_missing_component_witness :
  let m := absolute_move None None (Some half) one in
  let status := Demo.status_at (Has (Demo.position_no_zoom half half)) in
  let g := ev (GetStatus 3%nat "profile_1") (Returned status) in
  In g (calls (run m camera_without_zoom [] Demo.connected)) /\
  ev_GetStatus g = Some (Returned status) /\
  asks_for_missing_component None None (Some half) status /\
  value (run m camera_without_zoom [] Demo.connected) = Returned false /\
  count_calls "AbsoluteMove" (calls (run m camera_without_zoom [] Demo.connected))
    = 0%nat.
Proof.
  intros m status g.
  assert (Hin : In g (calls (run m camera_without_zoom [] Demo.connected)))
    by (vm_compute; right; left; reflexivity).
  assert (Hm : asks_for_missing_component None None (Some half) status)
    by (right; split; [discriminate | reflexivity]).
  split; [exact Hin | split; [reflexivity | split; [exact Hm | ]]].
  exact (absolute_move_fails_on_missing_component None None (Some half) one
           camera_without_zoom [] Demo.connected g status Hin eq_refl Hm).
Defined.

(** X5. [absolute_move], [move_to_position], [relative_move],
    [goto_preset] and [goto_home] put their [speed] argument, as given,
    on the pan, tilt and zoom axes of the request's [Speed]: it is not
    brought into 0.0 .. 1.0. *)
Theorem speed_is_passed_as_given
  (op : Operation) (speed : float)
  (env : Env) (h : list Event) (self : Controller)
  (e : Event) (sp : xyz) :
  speed_of op = Some speed ->
  In e (calls (run (invoke op) env h self)) ->
  ev_Speed e = Some sp ->
  sp = mkXyz speed speed speed.
Proof.
  intros Hs. destruct op; cbn in Hs; try discriminate Hs; injection Hs as <-;
    cbn [invoke]; unfold_wrappers; hide_prints.
  all: exec; intros Hin He; in_log Hin; cbn in He; try discriminate He;
    injection He as <-; reflexivity.
Qed.

(** A speed of 2.0 reaches the camera as 2.0. *)
Lemma speed_is_passed_as_given_witness :
  let e := ev (GotoHomePosition 3%nat (mkGotoHome "profile_1" (speed_dict two)))
              (Returned tt) in
  speed_of (op_goto_home two) = Some two /\
  In e (calls (run (invoke (op_goto_home two)) demo_env [] Demo.connected)) /\
  ev_Speed e = Some (speed_dict two) /\
  speed_dict two = mkXyz two two two.
Proof.
  intros e.
  assert (Hin : In e (calls (run (invoke (op_goto_home two)) demo_env []
                               Demo.connected)))
    by (vm_compute; right; left; reflexivity).
  split; [reflexivity | split; [exact Hin | split; [reflexivity | ]]].
  exact (speed_is_passed_as_given (op_goto_home two) two demo_env []
           Demo.connected e (speed_dict two) eq_refl Hin eq_refl).
Defined.

(** X6. [pan_left], [pan_right], [tilt_up] and [tilt_down] ask for a
    velocity on one axis only -- the speed for right and up, its opposite
    for left and down -- and 0.0 on the other two. *)
Theorem direction_helpers_move_one_axis
  (d : Direction) (speed duration : float)
  (env : Env) (h : list Event) (self : Controller)
  (e : Event) (r : ContinuousMoveRequest) :
  In e (calls (run (steer d speed duration) env h self)) ->
  ev_ContinuousMove e = Some r ->
  cm_Velocity r = steer_velocity d speed.
Proof.
  destruct d; cbn [steer steer_velocity];
    unfold pan_left, pan_right, tilt_up, tilt_down, continuous_move, stop;
    hide_prints.
  all: exec; intros Hin He; in_log Hin; cbn in He; try discriminate He;
    injection He as <-; reflexivity.
Qed.

Lemma direction_helpers_move_one_axis_witness :
  let r := mkContinuousMove "profile_1" (mkXyz (neg half) zero zero) in
  let e := ev (ContinuousMove 3%nat r) (Returned tt) in
  In e (calls (run (steer PanLeft half one) demo_env [] Demo.connected)) /\
  ev_ContinuousMove e = Some r /\
  cm_Velocity r = steer_velocity PanLeft half.
Proof.
  intros r e.
  assert (Hin : In e (calls (run (steer PanLeft half one) demo_env []
                               Demo.connected)))
    by (vm_compute; right; left; reflexivity).
  split; [exact Hin | split; [reflexivity | ]].
  exact (direction_helpers_move_one_axis PanLeft half one demo_env []
           Demo.connected e r Hin eq_refl).
Defined.

(** ** Queries *)

(** X7. [get_onvif_stream_url] asks [GetStreamUri] for an RTP-Unicast
    stream over RTSP of the stored profile and returns the [Uri] of the
    answer, or the empty string if the call raised. *)
Theorem get_onvif_stream_url_passes_through
  (env : Env) (h : list Event) (self : Controller)
  (e : Event) (r : GetStreamUriRequest) (o : outcome MediaUri) :
  In e (calls (run get_onvif_stream_url env h self)) ->
  ev_GetStreamUri e = Some (r, o) ->
  option_map token (media_profile self) = Some (su_ProfileToken r) /\
  su_Stream r = "RTP-Unicast" /\ su_Protocol r = "RTSP" /\
  value (run get_onvif_stream_url env h self)
    = Returned (match o with Returned uri => Uri uri | Raised _ => "" end).
Proof.
  unfold get_onvif_stream_url. hide_prints. exec.
  all: intros Hin He; in_log Hin; cbn in He; try discriminate He;
    injection He as <- <-; cbn; auto.
Qed.

Lemma get_onvif_stream_url_passes_through_witness :
  let r := mkGetStreamUri "profile_1" "RTP-Unicast" "RTSP" in
  let o := Returned (mkMediaUri "rtsp://192.168.1.100:554/stream1") in
  let e := ev (GetStreamUri 2%nat r) o in
  In e (calls (run get_onvif_stream_url demo_env [] Demo.connected)) /\
  ev_GetStreamUri e = Some (r, o) /\
  value (run get_onvif_stream_url demo_env [] Demo.connected)
    = Returned "rtsp://192.168.1.100:554/stream1".
Proof.
  intros r o e.
  assert (Hin : In e (calls (run get_onvif_stream_url demo_env []
                               Demo.connected)))
    by (vm_compute; right; left; reflexivity).
  split; [exact Hin | split; [reflexivity | ]].
  exact (proj2 (proj2 (proj2
           (get_onvif_stream_url_passes_through demo_env [] Demo.connected
              e r o Hin eq_refl)))).
Defined.

(** X8. [get_device_info], [get_capabilities] and [get_ptz_nodes] make
    one call and return the serialized answer as it is; if the call
    raised they return their fallback ([{}], [{}], [[]]). *)
Theorem information_queries_return_serialized
  (op : Operation) (env : Env) (h : list Event) (self : Controller)
  (e : Event) (o : outcome ZeepObject) :
  op = op_get_device_info \/ op = op_get_capabilities \/ op = op_get_ptz_nodes ->
  In e (calls (run (invoke op) env h self)) ->
  ev_response e = Some o ->
  calls (run (invoke op) env h self) = [e] /\
  match o with
  | Returned z =>
      value (run (invoke op) env h self) = Returned (serialize_object env z)
  | Raised _ =>
      exists f, fallback op = Some f /\
                value (run (invoke op) env h self) = Returned f
  end.
Proof.
  intros [-> | [-> | ->]]; cbn [invoke fallback];
    unfold get_device_info, get_capabilities, get_ptz_nodes; hide_prints.
  all: exec; intros Hin He; in_log Hin; cbn in He; try discriminate He;
    injection He as <-; cbn; split; try reflexivity; eauto.
Qed.

Lemma information_queries_return_serialized_witness :
  let e := ev (GetNodes 3%nat) (Returned ["node"]) in
  let r := run (invoke op_get_ptz_nodes) demo_env [] Demo.connected in
  In e (calls r) /\
  ev_response e = Some (Returned (ZNodes ["node"])) /\
  calls r = [e] /\
  value r = Returned (serialize_object demo_env (ZNodes ["node"])).
Proof.
  intros e r.
  assert (Hin : In e (calls r)) by (vm_compute; left; reflexivity).
  split; [exact Hin | split; [reflexivity | ]].
  exact (information_queries_return_serialized op_get_ptz_nodes demo_env []
           Demo.connected e (Returned (ZNodes ["node"]))
           (or_intror (or_intror eq_refl)) Hin eq_refl).
Defined.

(** X9. When [GetStatus] succeeds and no component of the reported
    position is [None], [get_status] returns the serialized status. *)
Theorem get_status_passes_printable_status_through
  (env : Env) (h : list Event) (self : Controller)
  (g : Event) (status : PTZStatus) :
  In g (calls (run get_status env h self)) ->
  ev_GetStatus g = Some (Returned status) ->
  printable status ->
  calls (run get_status env h self) = [g] /\
  value (run get_status env h self)
    = Returned (serialize_object env (ZStatus status)).
Proof.
  unfold get_status. hide_prints. exec.
  all: intros Hin Hg Hp; in_log Hin; cbn in Hg; try discriminate Hg;
    injection Hg as Hg; subst status; try (split; reflexivity).
  all: exfalso; unfold printable in Hp; cbn in *;
    repeat match goal with
      | H : ?x = _ |- _ => rewrite H in Hp; cbn in Hp
      end;
    destruct Hp as [Hpt Hz]; congruence.
Qed.

Lemma get_status_passes_printable_status_through_witness :
  let status := Demo.status_at (Has (Demo.position half half zero)) in
  let g := ev (GetStatus 3%nat "profile_1") (Returned status) in
  In g (calls (run get_status demo_env [] Demo.connected)) /\
  ev_GetStatus g = Some (Returned status) /\
  printable status /\
  calls (run get_status demo_env [] Demo.connected) = [g] /\
  value (run get_status demo_env [] Demo.connected)
    = Returned (serialize_object demo_env (ZStatus status)).
Proof.
  intros status g.
  assert (Hin : In g (calls (run get_status demo_env [] Demo.connected)))
    by (vm_compute; left; reflexivity).
  assert (Hp : printable status) by (split; discriminate).
  split; [exact Hin | split; [reflexivity | split; [exact Hp | ]]].
  exact (get_status_passes_printable_status_through demo_env [] Demo.connected
           g status Hin eq_refl Hp).
Defined.

(** X10. In [get_current_position] a [PanTilt] or [Zoom] that is [None]
    costs the whole answer -- (0.0, 0.0, 0.0) is returned whatever the
    other component holds -- while a component that is missing
    altogether is read as 0.0 and the other one is kept. *)
Theorem get_current_position_none_component_zeroes_all
  (env : Env) (h : list Event) (self : Controller)
  (g : Event) (status : PTZStatus) (pos : PTZVector) :
  In g (calls (run get_current_position env h self)) ->
  ev_GetStatus g = Some (Returned status) ->
  Position status = Has pos ->
  (PanTilt pos = IsNone \/ Zoom pos = IsNone ->
   value (run get_current_position env h self) = Returned (zero, zero, zero)) /\
  (forall pt, PanTilt pos = Has pt -> Zoom pos = Absent ->
   value (run get_current_position env h self)
     = Returned (v2_x pt, v2_y pt, zero)) /\
  (forall z, PanTilt pos = Absent -> Zoom pos = Has z ->
   value (run get_current_position env h self)
     = Returned (zero, zero, v1_x z)).
Proof.
  unfold get_current_position. hide_prints. exec.
  all: intros Hin Hg Hp; in_log Hin; cbn in Hg; try discriminate Hg;
    injection Hg as Hg; subst status.
  all: repeat split; intros; try reflexivity; try congruence.
  all: repeat match goal with H : _ \/ _ |- _ => destruct H end; congruence.
Qed.

(** The camera is at pan 0.5, tilt 0.5 and has no zoom: the answer is
    (0.0, 0.0, 0.0). *)
Lemma get_current_position_none_component_zeroes_all_witness :
  let pos := Demo.position_no_zoom half half in
  let status := Demo.status_at (Has pos) in
  let g := ev (GetStatus 3%nat "profile_1") (Returned status) in
  let r := run get_current_position camera_without_zoom [] Demo.connected in
  In g (calls r) /\
  ev_GetStatus g = Some (Returned status) /\
  Position status = Has pos /\
  value r = Returned (zero, zero, zero).
Proof.
  intros pos status g r.
  assert (Hin : In g (calls r)) by (vm_compute; left; reflexivity).
  split; [exact Hin | split; [reflexivity | split; [reflexivity | ]]].
  exact (proj1 (get_current_position_none_component_zeroes_all
                  camera_without_zoom [] Demo.connected g status pos
                  Hin eq_refl eq_refl)
           (or_intror eq_refl)).
Defined.

(** ** Presets *)

Lemma dict_get_set (d : list (string * pyval)) (key : string) (v : pyval)
  (t : string) :
  dict_get (dict_set d key v) t
  = if String.eqb key t then Some v else dict_get d t.
Proof.
  induction d as [|[k w] rest IH]; cbn.
  - reflexivity.
  - destruct (String.eqb_spec k key) as [-> | Hk]; cbn.
    + now destruct (String.eqb key t).
    + rewrite IH.
      destruct (String.eqb_spec k t) as [-> | Hkt]; [ | reflexivity].
      destruct (String.eqb_spec key t) as [-> | _]; congruence.
Qed.

Lemma dict_get_presets_dict (presets : list PTZPreset) :
  forall d t,
    dict_get (presets_dict presets d) t
    = match last_name presets t with
      | Some n => Some n
      | None => dict_get d t
      end.
Proof.
  unfold presets_dict.
  induction presets as [|p rest IH]; intros d t; cbn [fold_left last_name].
  - reflexivity.
  - rewrite IH, dict_get_set.
    destruct (last_name rest t); [reflexivity | ].
    now destruct (String.eqb (preset_token p) t).
Qed.

Lemma get_presets_loop_returns (presets : list PTZPreset) :
  Forall (fun p => ~ unprintable_preset p) presets ->
  forall d env h st,
    value (get_presets_loop presets d env h st)
    = Returned (presets_dict presets d).
Proof.
  induction 1 as [|p rest Hp _ IH]; intros d env h st.
  - reflexivity.
  - cbn [get_presets_loop]. unfold presets_dict. cbn [fold_left].
    unfold bind at 1.
    match goal with
    | |- context [match ?step env h st with _ => _ end] =>
        assert (Hs : exists st1, step env h st = mkResult (Returned tt) st1)
    end.
    { unfold unprintable_preset in Hp.
      destruct (PTZPosition p) as [ | | pos] eqn:Hpos;
        try (exec; eexists; reflexivity).
      destruct (PanTilt pos) as [ | | pt] eqn:Hpt;
        try (exec; rewrite ?Hpt; exec; eexists; reflexivity).
      exfalso. apply Hp. eauto. }
    destruct Hs as [st1 ->]. apply IH.
Qed.

Lemma get_presets_loop_raises (presets : list PTZPreset) :
  Exists unprintable_preset presets ->
  forall d env h st,
    exists x, value (get_presets_loop presets d env h st) = Raised x.
Proof.
  induction 1 as [p rest (pos & Hpos & Hpt) | p rest _ IH]; intros d env h st;
    cbn [get_presets_loop]; unfold bind at 1.
  - rewrite Hpos. exec. eexists. reflexivity.
  - match goal with
    | |- context [match ?step env h st with _ => _ end] =>
        destruct (step env h st) as [[[] | x] st1]
    end.
    + apply IH.
    + eexists. reflexivity.
Qed.

(** Once [GetPresets] has answered, the result of [get_presets] is that
    of its loop. *)
Lemma get_presets_answered
  (env : Env) (h : list Event) (self : Controller)
  (e : Event) (presets : list PTZPreset) :
  In e (calls (run get_presets env h self)) ->
  ev_GetPresets e = Some (Returned presets) ->
  exists st,
    value (run get_presets env h self)
    = match value (get_presets_loop presets [] env h st) with
      | Returned d => Returned (PyDict d)
      | Raised _ => Returned (PyDict [])
      end.
Proof.
  unfold get_presets. hide_prints.
  unfold_monad; red_monad;
    repeat (first [break_loop_eqn | break_match]; red_monad).
  all: intros Hin He; in_log Hin; cbn in He; try discriminate He;
    injection He as He; subst presets.
  all: eexists; rewrite Hloop; reflexivity.
Qed.

(** X11. When [GetPresets] succeeds and no preset has a position whose
    [PanTilt] is [None], [get_presets] returns a dictionary in which
    each token is bound to the name of the last preset carrying it, and
    nothing else is bound. *)
Theorem get_presets_maps_tokens_to_names
  (env : Env) (h : list Event) (self : Controller)
  (e : Event) (presets : list PTZPreset) :
  In e (calls (run get_presets env h self)) ->
  ev_GetPresets e = Some (Returned presets) ->
  Forall (fun p => ~ unprintable_preset p) presets ->
  exists d,
    value (run get_presets env h self) = Returned (PyDict d) /\
    forall t, dict_get d t = last_name presets t.
Proof.
  intros Hin He Hp.
  destruct (get_presets_answered env h self e presets Hin He) as [st ->].
  rewrite (get_presets_loop_returns presets Hp).
  eexists. split; [reflexivity | ].
  intros t. rewrite dict_get_presets_dict. now destruct (last_name presets t).
Qed.

(** Two presets share the token "1": the later name is kept. *)
Lemma get_presets_maps_tokens_to_names_witness :
  let presets := [mkPTZPreset "1" "door" IsNone; mkPTZPreset "1" "yard" Absent] in
  let env := camera_with_presets presets in
  let e := ev (GetPresets 3%nat "profile_1") (Returned presets) in
  In e (calls (run get_presets env [] Demo.connected)) /\
  ev_GetPresets e = Some (Returned presets) /\
  Forall (fun p => ~ unprintable_preset p) presets /\
  exists d,
    value (run get_presets env [] Demo.connected) = Returned (PyDict d) /\
    forall t, dict_get d t = last_name presets t.
Proof.
  intros presets env e.
  assert (Hin : In e (calls (run get_presets env [] Demo.connected)))
    by (vm_compute; left; reflexivity).
  assert (Hp : Forall (fun p => ~ unprintable_preset p) presets)
    by (repeat constructor; intros (pos & Hpos & _); discriminate Hpos).
  split; [exact Hin | split; [reflexivity | split; [exact Hp | ]]].
  exact (get_presets_maps_tokens_to_names env [] Demo.connected e presets
           Hin eq_refl Hp).
Defined.

(** X12. If some preset has a position whose [PanTilt] is [None],
    [get_presets] returns [{}] although [GetPresets] succeeded: the line
    printed for that preset raises and the dictionary is dropped. *)
Theorem get_presets_empty_on_unprintable_preset
  (env : Env) (h : list Event) (self : Controller)
  (e : Event) (presets : list PTZPreset) :
  In e (calls (run get_presets env h self)) ->
  ev_GetPresets e = Some (Returned presets) ->
  Exists unprintable_preset presets ->
  value (run get_presets env h self) = Returned (PyDict []).
Proof.
  intros Hin He Hp.
  destruct (get_presets_answered env h self e presets Hin He) as [st ->].
  destruct (get_presets_loop_raises presets Hp [] env h st) as [x ->].
  reflexivity.
Qed.

Lemma get_presets_empty_on_unprintable_preset_witness :
  let presets := [mkPTZPreset "1" "door" IsNone; preset_without_pan_tilt] in
  let env := camera_with_presets presets in
  let e := ev (GetPresets 3%nat "profile_1") (Returned presets) in
  In e (calls (run get_presets env [] Demo.connected)) /\
  ev_GetPresets e = Some (Returned presets) /\
  Exists unprintable_preset presets /\
  value (run get_presets env [] Demo.connected) = Returned (PyDict []).
Proof.
  intros presets env e.
  assert (Hin : In e (calls (run get_presets env [] Demo.connected)))
    by (vm_compute; left; reflexivity).
  assert (Hp : Exists unprintable_preset presets)
    by (right; left; eexists; split; reflexivity).
  split; [exact Hin | split; [reflexivity | split; [exact Hp | ]]].
  exact (get_presets_empty_on_unprintable_preset env [] Demo.connected e
           presets Hin eq_refl Hp).
Defined.

(** X13. [set_preset] returns the empty string in every run, also when
    the device has stored the preset: the library hands back the new
    token as a plain string, reading [PresetToken] from it raises, and the
    handler prints the failure line.  The request it sends carries the
    given name, and the given token only if that is a non-empty string. *)
Theorem set_preset_returns_no_token
  (preset_name : string) (preset_token : option string)
  (env : Env) (h : list Event) (self : Controller) :
  value (run (set_preset preset_name preset_token) env h self) = Returned "" /\
  (forall e r o,
     In e (calls (run (set_preset preset_name preset_token) env h self)) ->
     ev_SetPreset e = Some (r, o) ->
     sp_PresetName r = preset_name /\
     sp_PresetToken r = token_sent preset_token /\
     (forall token,
        o = Returned token ->
        printed (run (set_preset preset_name preset_token) env h self)
          = [mkLine "✗ 設定預設位置失敗: {e}"
               [PyStr "'str' object has no attribute 'PresetToken'"]])).
Proof.
  unfold set_preset. exec.
  all: split; [reflexivity | ].
  all: intros sent req answer Hin He; in_log Hin; cbn in He;
    try discriminate He;
    injection He as <- <-; cbn [sp_PresetName sp_PresetToken].
  all: split; [reflexivity | split].
  all: try (intros t Ht; (discriminate Ht || reflexivity)).
  all: unfold token_sent, truthy in *;
    repeat match goal with
      | H : context [match ?x with _ => _ end] |- _ => destruct x eqn:?
      | H : negb _ = _ |- _ =>
          apply (f_equal negb) in H; rewrite negb_involutive in H; cbn in H
      | H : String.eqb _ _ = true |- _ => apply String.eqb_eq in H
      | H : String.eqb _ _ = false |- _ => apply String.eqb_neq in H
      end; subst; try discriminate; try reflexivity; try congruence.
  all: match goal with
       | |- Some ?s = _ => destruct s; [congruence | reflexivity]
       end.
Qed.

(** The camera stores the preset and answers with the token "2"; the
    caller gets the empty string. *)
Lemma set_preset_returns_no_token_witness :
  let m := set_preset "gate" (Some "") in
  let r := mkSetPreset "profile_1" "gate" None in
  let e := ev (SetPreset 3%nat r) (Returned "2") in
  In e (calls (run m demo_env [] Demo.connected)) /\
  ev_SetPreset e = Some (r, Returned "2") /\
  value (run m demo_env [] Demo.connected) = Returned "" /\
  printed (run m demo_env [] Demo.connected)
    = [mkLine "✗ 設定預設位置失敗: {e}"
         [PyStr "'str' object has no attribute 'PresetToken'"]].
Proof.
  intros m r e.
  assert (Hin : In e (calls (run m demo_env [] Demo.connected)))
    by (vm_compute; right; left; reflexivity).
  destruct (set_preset_returns_no_token "gate" (Some "") demo_env []
              Demo.connected) as [Hv Hreq].
  split; [exact Hin | split; [reflexivity | split; [exact Hv | ]]].
  exact (proj2 (proj2 (Hreq e r (Returned "2") Hin eq_refl)) "2" eq_refl).
Defined.

(** ** All operations *)

(** X14. Every request that carries a [ProfileToken], from whichever
    public operation, carries the token of the profile stored in the
    controller. *)
Theorem requests_carry_the_stored_profile_token
  (op : Operation) (env : Env) (h : list Event) (self : Controller)
  (e : Event) (t : string) :
  In e (calls (run (invoke op) env h self)) ->
  ev_ProfileToken e = Some t ->
  option_map token (media_profile self) = Some t.
Proof.
  destruct op; cbn [invoke]; unfold_methods.
  all: exec'; intros Hin He; in_log Hin; cbn in He; try discriminate He;
    injection He as <-; reflexivity.
Qed.

Lemma requests_carry_the_stored_profile_token_witness :
  let e := ev (Stop 3%nat (mkStop "profile_1" true true)) (Returned tt) in
  In e (calls (run (invoke op_stop) demo_env [] Demo.connected)) /\
  ev_ProfileToken e = Some "profile_1" /\
  option_map token (media_profile Demo.connected) = Some "profile_1".
Proof.
  intros e.
  assert (Hin : In e (calls (run (invoke op_stop) demo_env [] Demo.connected)))
    by (vm_compute; left; reflexivity).
  split; [exact Hin | split; [reflexivity | ]].
  exact (requests_carry_the_stored_profile_token op_stop demo_env []
           Demo.connected e "profile_1" Hin eq_refl).
Defined.

(** X15. On a controller that has just been built, every operation but
    [connect] returns without a single call on the library, and returns
    its fallback. *)
Theorem operations_before_connect_make_no_call
  (op : Operation) (env : Env) (h : list Event)
  (host : string) (port : Z) (user password : string)
  (wsdl_dir : option string) :
  op <> op_connect ->
  calls (run (invoke op) env h (__init__ host port user password wsdl_dir)) = [] /\
  (forall f, fallback op = Some f ->
     value (run (invoke op) env h (__init__ host port user password wsdl_dir))
       = Returned f).
Proof.
  intros Hop. destruct op; try congruence; cbn [invoke fallback]; unfold_methods.
  all: exec';
    lazymatch goal with
    | |- _ =>
        split; [reflexivity
               | intros f Hf; try discriminate Hf; injection Hf as <-; reflexivity]
    end.
Qed.

Lemma operations_before_connect_make_no_call_witness :
  let r := run (invoke (op_absolute_move (Some half) None None one))
             demo_env [] fresh_controller in
  op_absolute_move (Some half) None None one <> op_connect /\
  calls r = [] /\
  value r = Returned (PyBool false).
Proof.
  intros r.
  assert (Hop : op_absolute_move (Some half) None None one <> op_connect)
    by discriminate.
  split; [exact Hop | ].
  destruct (operations_before_connect_make_no_call
              (op_absolute_move (Some half) None None one) demo_env []
              "192.168.1.100" 2020 "admin" "secret" None Hop) as [Hc Hv].
  split; [exact Hc | exact (Hv (PyBool false) eq_refl)].
Defined.

(** X16. No operation changes the host, port, user, password or WSDL
    directory of the controller, and every operation but [connect]
    leaves the whole controller as it was. *)
Theorem only_connect_changes_the_controller
  (op : Operation) (env : Env) (h : list Event) (self : Controller) :
  same_settings self (self_after (run (invoke op) env h self)) /\
  (op <> op_connect -> self_after (run (invoke op) env h self) = self).
Proof.
  unfold same_settings. destruct op; cbn [invoke]; unfold_methods.
  all: exec'; cbn;
    lazymatch goal with
    | |- _ => split; [repeat split | intros Hop; congruence || reflexivity]
    end.
Qed.

Lemma only_connect_changes_the_controller_witness :
  let r := run (invoke (op_set_preset "gate" None)) demo_env [] Demo.connected in
  op_set_preset "gate" None <> op_connect /\
  self_after r = Demo.connected.
Proof.
  intros r.
  assert (Hop : op_set_preset "gate" None <> op_connect) by discriminate.
  split; [exact Hop | ].
  exact (proj2 (only_connect_changes_the_controller (op_set_preset "gate" None)
                  demo_env [] Demo.connected) Hop).
Defined.

(** X17. The calls an operation makes are among those listed for it in
    [may_issue]: a query never moves the camera or writes a preset, a
    move never touches presets, and only [connect] builds the camera and
    its services. *)
Theorem operations_call_surface
  (op : Operation) (env : Env) (h : list Event) (self : Controller)
  (e : Event) :
  In e (calls (run (invoke op) env h self)) ->
  In (ev_name e) (may_issue op).
Proof.
  destruct op; cbn [invoke may_issue]; unfold_methods.
  all: exec'; intros Hin; in_log Hin; cbn; tauto.
Qed.

Lemma operations_call_surface_witness :
  let op := op_move_to_position half half one in
  let e := ev (create_type 3%nat "AbsoluteMove") (Returned tt) in
  In e (calls (run (invoke op) demo_env [] Demo.connected)) /\
  In (ev_name e) (may_issue op).
Proof.
  intros op e.
  assert (Hin : In e (calls (run (invoke op) demo_env [] Demo.connected)))
    by (vm_compute; left; reflexivity).
  split; [exact Hin | ].
  exact (operations_call_surface op demo_env [] Demo.connected e Hin).
Defined.

(** ** [connect] *)

(** X18. A [connect] that returns [True] has built the camera from the
    stored host, port, user and password (and the WSDL directory only if
    it is a non-empty string), then asked for the device information,
    the media service, the profiles and the PTZ service, in this order,
    before looking for the ranges; it has stored the camera, the two
    services and the first profile returned. *)
Theorem connect_success_stores_handles
  (env : Env) (h : list Event) (self : Controller) :
  value (run connect env h self) = Returned true ->
  connected_through (calls (run connect env h self)) self
    (self_after (run connect env h self)).
Proof.
  unfold connected_through, connect, _get_ptz_config_options. exec'.
  all: intros Hv; try discriminate Hv.
  all: do 7 eexists; cbn; repeat split; try reflexivity.
  all: rewrite ?app_nil_r; repeat f_equal.
Qed.

Lemma connect_success_stores_handles_witness :
  value (run connect wide_camera [] fresh_controller) = Returned true /\
  connected_through (calls (run connect wide_camera [] fresh_controller))
    fresh_controller
    (self_after (run connect wide_camera [] fresh_controller)).
Proof.
  assert (Hv : value (run connect wide_camera [] fresh_controller)
               = Returned true) by (vm_compute; reflexivity).
  split; [exact Hv | ].
  exact (connect_success_stores_handles wide_camera [] fresh_controller Hv).
Defined.

(** X19. A [connect] that returns [False] has not reached the PTZ
    configuration: no [create_type] and no [GetConfigurationOptions] was
    called, and the PTZ service, the stored options and the three ranges
    are what they were. *)
Theorem failed_connect_leaves_no_ptz_service
  (env : Env) (h : list Event) (self : Controller) :
  value (run connect env h self) = Returned false ->
  ptz_service (self_after (run connect env h self)) = ptz_service self /\
  ptz_config_options (self_after (run connect env h self))
    = ptz_config_options self /\
  pan_range (self_after (run connect env h self)) = pan_range self /\
  tilt_range (self_after (run connect env h self)) = tilt_range self /\
  zoom_range (self_after (run connect env h self)) = zoom_range self /\
  count_calls "create_type" (calls (run connect env h self)) = 0%nat /\
  count_calls "GetConfigurationOptions" (calls (run connect env h self)) = 0%nat.
Proof.
  unfold connect, _get_ptz_config_options. exec'.
  all: intros Hv; try discriminate Hv.
  all: cbn; repeat split; reflexivity.
Qed.

Lemma failed_connect_leaves_no_ptz_service_witness :
  let r := run connect camera_without_profiles [] fresh_controller in
  value r = Returned false /\
  ptz_service (self_after r) = None /\
  camera (self_after r) = Some 1%nat.
Proof.
  intros r.
  assert (Hv : value r = Returned false) by (vm_compute; reflexivity).
  split; [exact Hv | split; [ | vm_compute; reflexivity]].
  exact (proj1 (failed_connect_leaves_no_ptz_service camera_without_profiles []
                  fresh_controller Hv)).
Defined.

(** X20. On any controller, after any run of [connect], each of the
    three ranges is that of the first matching space reported during the
    run, or else what it was before the run: a second [connect] that
    learns nothing keeps the ranges of the first. *)
Theorem connect_discovers_or_keeps_ranges
  (env : Env) (h : list Event) (self : Controller) :
  discovered_or_kept self (self_after (run connect env h self))
    (calls (run connect env h self)).
Proof.
  unfold connect, _get_ptz_config_options. exec'.
  all: unfold discovered_or_kept; cbn.
  all: rewrite_facts.
  all: auto.
Qed.

Example reconnect_keeps_discovered_ranges :
  let first := self_after (run connect wide_camera [] fresh_controller) in
  let second := run connect camera_without_options [] first in
  value second = Returned true /\
  pan_range (self_after second) = (neg_two, two) /\
  zoom_range (self_after second) = (zero, three).
Proof. vm_compute. repeat split. Qed.

(** ** [demo] *)

Section OnlyIssues.

Variable P : Event -> Prop.

Lemma only_issues_silent {A : Type} (m : M A) :
  (forall env h st, calls_of (state (m env h st)) = calls_of st) ->
  only_issues P m.
Proof.
  intros Hm env h st. exists []. rewrite Hm, app_nil_r. split; constructor.
Qed.

Lemma only_issues_ret {A : Type} (a : A) : only_issues P (ret a).
Proof. now apply only_issues_silent. Qed.

Lemma only_issues_raise {A : Type} (x : Exn) : only_issues P (@raise A x).
Proof. now apply only_issues_silent. Qed.

Lemma only_issues_print (f : string) (a : list pyval) :
  only_issues P (print f a).
Proof. now apply only_issues_silent. Qed.

Lemma only_issues_get_self : only_issues P get_self.
Proof. now apply only_issues_silent. Qed.

Lemma only_issues_modify_self (f : Controller -> Controller) :
  only_issues P (modify_self f).
Proof. now apply only_issues_silent. Qed.

Lemma only_issues_serialize (o : ZeepObject) : only_issues P (serialize o).
Proof. now apply only_issues_silent. Qed.

Lemma only_issues_deref {A : Type} (o : option A) (name : string) :
  only_issues P (deref o name).
Proof. apply only_issues_silent. now destruct o. Qed.

Lemma only_issues_getattr {A : Type} (obj : string) (a : attr A)
  (name : string) :
  only_issues P (getattr obj a name).
Proof. apply only_issues_silent. now destruct a. Qed.

Lemma only_issues_str_attribute (s attribute : string) :
  only_issues P (str_attribute s attribute).
Proof. now apply only_issues_silent. Qed.

Lemma only_issues_loop (presets : list PTZPreset) (d : list (string * pyval)) :
  only_issues P (get_presets_loop presets d).
Proof.
  apply only_issues_silent. intros env h st.
  apply (get_presets_loop_quiet presets d env h st).
Qed.

Lemma only_issues_call {R : Type} (c : Call R) :
  (forall r, P (ev c r)) -> only_issues P (call c).
Proof.
  intros Hc env h st. eexists. split; [reflexivity | ].
  constructor; [apply Hc | constructor].
Qed.

Lemma only_issues_bind {A B : Type} (m : M A) (k : A -> M B) :
  only_issues P m -> (forall a, only_issues P (k a)) ->
  only_issues P (bind m k).
Proof.
  intros Hm Hk env h st. unfold bind.
  destruct (Hm env h st) as (new1 & H1 & HP1).
  destruct (m env h st) as [[a | x] st1]; cbn [state] in *.
  - destruct (Hk a env h st1) as (new2 & H2 & HP2).
    exists (new1 ++ new2). rewrite H2, H1, app_assoc. split; [reflexivity | ].
    apply Forall_app. now split.
  - exists new1. now split.
Qed.

Lemma only_issues_try {A : Type} (body : M A) (handler : Exn -> M A) :
  only_issues P body -> (forall x, only_issues P (handler x)) ->
  only_issues P (try_except body handler).
Proof.
  intros Hm Hk env h st. unfold try_except.
  destruct (Hm env h st) as (new1 & H1 & HP1).
  destruct (body env h st) as [[a | x] st1]; cbn [state] in *.
  - exists new1. now split.
  - destruct (Hk x env h st1) as (new2 & H2 & HP2).
    exists (new1 ++ new2). rewrite H2, H1, app_assoc. split; [reflexivity | ].
    apply Forall_app. now split.
Qed.

End OnlyIssues.

(** Follows the shape of a method, one rule per construct. *)
Ltac issues :=
  repeat first
    [ apply only_issues_ret
    | apply only_issues_raise
    | apply only_issues_print
    | apply only_issues_get_self
    | apply only_issues_modify_self
    | apply only_issues_serialize
    | apply only_issues_deref
    | apply only_issues_getattr
    | apply only_issues_str_attribute
    | apply only_issues_loop
    | apply only_issues_call; intros ?; cbn; tauto
    | apply only_issues_bind; [ | intros ? ]
    | apply only_issues_try; [ | intros ? ]
    | match goal with
      | |- only_issues _ (match ?x with _ => _ end) => destruct x
      end ].

Lemma demo_only_issues_its_surface :
  only_issues (fun e => In (ev_name e) demo_surface) demo.
Proof.
  unfold demo, demo_tour, connect, _get_ptz_config_options, get_rtsp_url,
    get_status, get_current_position, move_to_position, absolute_move,
    assign_pan_tilt, assign_zoom, get_presets, set_preset, goto_home,
    goto_preset.
  issues.
Qed.

(** X21. Whatever the camera answers, [demo] calls nothing outside
    [demo_surface]: it never issues [RelativeMove], [ContinuousMove],
    [Stop], [RemovePreset], [SetHomePosition], [GetStreamUri],
    [GetCapabilities] or [GetNodes]. *)
Theorem demo_call_surface (env : Env) (h : list Event) (self : Controller)
  (e : Event) :
  In e (calls (run demo env h self)) -> In (ev_name e) demo_surface.
Proof.
  unfold run, calls.
  destruct (demo_only_issues_its_surface env h (mkState self [] []))
    as (new & -> & HP).
  cbn [calls_of app]. intros Hin.
  exact (proj1 (Forall_forall _ _) HP e Hin).
Qed.

Lemma demo_call_surface_witness :
  let e := ev (SetPreset 3%nat (mkSetPreset "profile_1" "ONVIF_測試位置" None))
              (Returned "2") in
  In e (calls (run demo demo_env [] fresh_controller)) /\
  In (ev_name e) demo_surface.
Proof.
  intros e.
  assert (Hin : In e (calls (run demo demo_env [] fresh_controller)))
    by (vm_compute; do 20 right; left; reflexivity).
  split; [exact Hin | ].
  exact (demo_call_surface demo_env [] fresh_controller e Hin).
Defined.

(** The lines printed before [connect] do not bear on it. *)
Lemma connect_ignores_printed
  (env : Env) (h : list Event) (self : Controller) (lines : list Line) :
  value (connect env h (mkState self [] lines)) = value (run connect env h self) /\
  calls_of (state (connect env h (mkState self [] lines)))
    = calls (run connect env h self).
Proof.
  unfold connect, _get_ptz_config_options. hide_prints. exec.
  all: split; reflexivity.
Qed.

Lemma demo_after_connect (env : Env) (h : list Event) (st : State) :
  value (connect env h st) = Returned false ->
  value ((ok <- connect ;; if negb ok then ret tt else demo_tour) env h st)
    = Returned tt /\
  calls_of (state ((ok <- connect ;; if negb ok then ret tt else demo_tour)
                     env h st))
    = calls_of (state (connect env h st)).
Proof.
  unfold bind. destruct (connect env h st) as [[ok | x] st1]; cbn [value state].
  - intros Hv. injection Hv as ->. split; reflexivity.
  - discriminate.
Qed.

(** X22. If the [connect] of [demo] fails, [demo] returns at once: the
    calls of the run are those of that [connect], and nothing is asked
    of the camera afterwards. *)
Theorem demo_stops_after_failed_connect
  (env : Env) (h : list Event) (self : Controller) :
  value (run connect env h demo_controller) = Returned false ->
  value (run demo env h self) = Returned tt /\
  calls (run demo env h self) = calls (run connect env h demo_controller).
Proof.
  intros Hv.
  pose (banner := [mkLine (string_times "=" 60) [];
                   mkLine "Tapo C225 ONVIF PTZ 控制系統 - 示範" [];
                   mkLine (string_times "=" 60) []]).
  destruct (connect_ignores_printed env h demo_controller banner)
    as [Hval Hcalls].
  rewrite Hv in Hval.
  destruct (demo_after_connect env h (mkState demo_controller [] banner) Hval)
    as [Hdv Hdc].
  split.
  - exact Hdv.
  - unfold calls at 1. rewrite <- Hcalls. exact Hdc.
Qed.

Lemma demo_stops_after_failed_connect_witness :
  value (run connect camera_without_profiles [] demo_controller)
    = Returned false /\
  value (run demo camera_without_profiles [] fresh_controller) = Returned tt /\
  calls (run demo camera_without_profiles [] fresh_controller)
    = calls (run connect camera_without_profiles [] demo_controller).
Proof.
  assert (Hv : value (run connect camera_without_profiles [] demo_controller)
               = Returned false) by (vm_compute; reflexivity).
  split; [exact Hv | ].
  exact (demo_stops_after_failed_connect camera_without_profiles []
           fresh_controller Hv).
Defined.
